(** * TreatmentPlanner: the knowledge repository and keyword search of main.py

    A shallow embedding of the [TreatmentPlanner] class.  The knowledge base
    is whatever [json.load] returned, so the embedding works on untyped
    Python values and threads the exceptions the accessors can raise
    ([KeyError], [AttributeError], [TypeError]) through an error monad. *)

From Stdlib Require Import List String Ascii Bool Arith ZArith Lia.
From Stdlib Require Import SpecFloat Decimal DecimalNat DecimalString.
Import ListNotations.
Open Scope string_scope.
Open Scope list_scope.

(** ** Python values

    The values [json.load] produces, which are also the values the planner
    builds.  A [str] is held as its UTF-8 encoding; a [dict] is the list of
    its items in insertion order (keys of a real dict are pairwise
    distinct, see [dict_keys_unique]). *)

#[warnings="-register-all"]
Inductive value : Type :=
| VNone
| VBool (b : bool)
| VInt (z : Z)
| VFloat (f : spec_float)
| VStr (s : string)
| VList (l : list value)
| VDict (d : list (string * value)).

Inductive exn : Type :=
| KeyError (key : string)
| AttributeError
| TypeError.

Inductive result (A : Type) : Type :=
| Ok (a : A)
| Raise (e : exn).

Arguments Ok {A} a.
Arguments Raise {A} e.

Definition bind {A B : Type} (c : result A) (k : A -> result B) : result B :=
  match c with
  | Ok a => k a
  | Raise e => Raise e
  end.

Notation "x <- c ;; k" := (bind c (fun x => k))
  (at level 61, c at next level, right associativity).
Notation "' pat <- c ;; k" := (bind c (fun x => match x with pat => k end))
  (at level 61, pat pattern, c at next level, right associativity).

(** [for x in xs: body] where the body updates an accumulator and may raise. *)
Fixpoint for_each {A S : Type} (xs : list A) (body : S -> A -> result S) (s : S)
  : result S :=
  match xs with
  | [] => Ok s
  | x :: rest => s' <- body s x ;; for_each rest body s'
  end.

(** A list comprehension [[f(x) for x in xs]]. *)
Fixpoint comprehension {A B : Type} (f : A -> result B) (xs : list A)
  : result (list B) :=
  match xs with
  | [] => Ok []
  | x :: rest => y <- f x ;; ys <- comprehension f rest ;; Ok (y :: ys)
  end.

(** ** Builtins *)

Definition dict_keys_unique (d : list (string * value)) : Prop :=
  NoDup (map fst d).

Fixpoint lookup (key : string) (d : list (string * value)) : option value :=
  match d with
  | [] => None
  | (k, v) :: rest => if String.eqb k key then Some v else lookup key rest
  end.

(** [obj[key]] with a string key. *)
Definition getitem (obj : value) (key : string) : result value :=
  match obj with
  | VDict d =>
      match lookup key d with
      | Some v => Ok v
      | None => Raise (KeyError key)
      end
  | _ => Raise TypeError
  end.

(** [obj.get(key, default)]. *)
Definition dict_get (obj : value) (key : string) (default : value)
  : result value :=
  match obj with
  | VDict d =>
      match lookup key d with
      | Some v => Ok v
      | None => Ok default
      end
  | _ => Raise AttributeError
  end.

(** [obj.items()]. *)
Definition dict_items (obj : value) : result (list (string * value)) :=
  match obj with
  | VDict d => Ok d
  | _ => Raise AttributeError
  end.

(** The characters of a [str]: a byte of the form 10xxxxxx continues the
    character started before it. *)
Definition is_continuation (c : ascii) : bool :=
  let n := nat_of_ascii c in ((128 <=? n) && (n <? 192))%nat.

Definition starts_inside_char (s : string) : bool :=
  match s with
  | String c _ => is_continuation c
  | EmptyString => false
  end.

Fixpoint chars_of (s : string) : list string :=
  match s with
  | EmptyString => []
  | String c s' =>
      match chars_of s' with
      | ch :: rest =>
          if starts_inside_char ch then String c ch :: rest
          else String c "" :: ch :: rest
      | [] => [String c ""]
      end
  end.

(** Iteration, as in [for x in obj] and [*obj]. *)
Definition iterate (obj : value) : result (list value) :=
  match obj with
  | VList l => Ok l
  | VStr s => Ok (map VStr (chars_of s))
  | VDict d => Ok (map (fun kv => VStr (fst kv)) d)
  | _ => Raise TypeError
  end.

(** Truth value, as in [if obj]. *)
Definition truthy (obj : value) : bool :=
  match obj with
  | VNone => false
  | VBool b => b
  | VInt z => negb (Z.eqb z 0)
  | VFloat (S754_zero _) => false
  | VFloat _ => true
  | VStr s => negb (String.eqb s "")
  | VList l => match l with [] => false | _ => true end
  | VDict d => match d with [] => false | _ => true end
  end.

(** [obj == s] for a [str] s. *)
Definition eq_str (obj : value) (s : string) : bool :=
  match obj with
  | VStr t => String.eqb t s
  | _ => false
  end.

(** [sub in s] on strings. *)
Fixpoint str_in (sub s : string) : bool :=
  prefix sub s ||
  match s with
  | EmptyString => false
  | String _ s' => str_in sub s'
  end.

(** [str(n)] for an index n. *)
Definition str_of_nat (n : nat) : string :=
  NilEmpty.string_of_uint (Nat.to_uint n).

Fixpoint enumerate_from {A : Type} (start : nat) (xs : list A)
  : list (nat * A) :=
  match xs with
  | [] => []
  | x :: rest => (start, x) :: enumerate_from (S start) rest
  end.

Definition enumerate {A : Type} (xs : list A) : list (nat * A) :=
  enumerate_from 0 xs.

(** [sep.join(parts)]: every part has to be a [str]. *)
Fixpoint join (sep : string) (parts : list value) : result string :=
  match parts with
  | [] => Ok ""
  | VStr s :: rest =>
      match rest with
      | [] => Ok s
      | _ => t <- join sep rest ;; Ok (s ++ sep ++ t)%string
      end
  | _ :: _ => Raise TypeError
  end.

(** ** Navigation *)

Definition get_diseases (knowledge_base : value) : result (list value) :=
  diseases <- getitem knowledge_base "disease" ;;
  diseases <- iterate diseases ;;
  comprehension (fun disease => getitem disease "name") diseases.

Fixpoint get_disease_variants_loop (diseases : list value)
  (disease_name : string) : result value :=
  match diseases with
  | [] => Ok (VList [])
  | disease :: rest =>
      name <- getitem disease "name" ;;
      if eq_str name disease_name then getitem disease "type_variant"
      else get_disease_variants_loop rest disease_name
  end.

Definition get_disease_variants (knowledge_base : value)
  (disease_name : string) : result value :=
  diseases <- getitem knowledge_base "disease" ;;
  diseases <- iterate diseases ;;
  get_disease_variants_loop diseases disease_name.

Definition no_description : string := "Описание отсутствует".

Definition group_entry (key : string) (idx : nat) (group : value)
  : result value :=
  description <- dict_get group "patients_indications" (VStr no_description) ;;
  Ok (VDict [("id", VStr (key ++ "_" ++ str_of_nat idx));
             ("description", description);
             ("data", group)]).

Definition get_patient_groups (variant : value) : result (list value) :=
  items <- dict_items variant ;;
  for_each items
    (fun groups '(key, value) =>
       match value with
       | VList l =>
           if prefix "varik" key && (0 <? List.length l)%nat then
             for_each (enumerate l)
               (fun groups '(idx, group) =>
                  entry <- group_entry key idx group ;;
                  Ok (groups ++ [entry]))
               groups
           else Ok groups
       | _ => Ok groups
       end)
    [].

Definition get_group_plan (variant_name : string) (group_data : value)
  : result value :=
  description <- dict_get group_data "patients_indications" (VStr "") ;;
  stages <- dict_get group_data "stage" (VList []) ;;
  Ok (VDict [("variant", VStr variant_name);
             ("group_description", description);
             ("stages", stages)]).

(** ** Keyword search *)

Section Search.

(** [str.lower], which follows the Unicode case tables, and [str(obj)] for
    an object that is not a [str] are left as parameters. *)
Variable lower : string -> string.
Variable repr : value -> string.

Definition str_of (obj : value) : string :=
  match obj with
  | VStr s => s
  | _ => repr obj
  end.

(** [any(keyword_lower in str(field).lower() for field in fields)] *)
Definition any_field_contains (keyword_lower : string) (fields : list value)
  : bool :=
  existsb (fun field => str_in keyword_lower (lower (str_of field))) fields.

Definition _method_matches (method : value) (keyword_lower : string)
  : result bool :=
  name <- dict_get method "name method" (VStr "") ;;
  indications <- dict_get method "indications" (VList []) ;;
  indications <- iterate indications ;;
  medicines <- dict_get method "medicines" (VList []) ;;
  medicines <- iterate medicines ;;
  materials <- dict_get method "used material" (VList []) ;;
  materials <- iterate materials ;;
  recommendations <- dict_get method "recommendations" (VStr "") ;;
  let fields_to_check :=
    [name] ++ indications ++ medicines ++ materials ++ [recommendations] in
  Ok (any_field_contains keyword_lower fields_to_check).

(** The loop over the methods of a joint block, left at the first match. *)
Fixpoint _joint_matches_loop (methods : list value) (keyword_lower : string)
  : result bool :=
  match methods with
  | [] => Ok false
  | method :: rest =>
      name <- dict_get method "name method" (VStr "") ;;
      medicines <- dict_get method "medicines" (VList []) ;;
      medicines <- iterate medicines ;;
      materials <- dict_get method "used material" (VList []) ;;
      materials <- iterate materials ;;
      let method_fields := [name] ++ medicines ++ materials in
      if any_field_contains keyword_lower method_fields then Ok true
      else _joint_matches_loop rest keyword_lower
  end.

Definition _joint_matches (joint : value) (keyword_lower : string)
  : result bool :=
  indications <- dict_get joint "indications" (VList []) ;;
  indications <- iterate indications ;;
  recommendations <- dict_get joint "recommendations" (VStr "") ;;
  let fields_to_check := indications ++ [recommendations] in
  if any_field_contains keyword_lower fields_to_check then Ok true
  else
    methods <- dict_get joint "methods" (VList []) ;;
    methods <- iterate methods ;;
    _joint_matches_loop methods keyword_lower.

Definition no_name : string := "Без названия".

Definition _format_method_result (method disease variant group : value)
  (stage_name : value) (method_type : string) : result value :=
  name <- dict_get method "name method" (VStr no_name) ;;
  disease_name <- getitem disease "name" ;;
  variant_name <- getitem variant "name" ;;
  description <- getitem group "description" ;;
  indications <- dict_get method "indications" (VList []) ;;
  medicines <- dict_get method "medicines" (VList []) ;;
  materials <- dict_get method "used material" (VList []) ;;
  recommendations <- dict_get method "recommendations" (VStr "") ;;
  pages <- dict_get method "pages" (VList []) ;;
  persuasiveness <- dict_get method "persuasiveness" (VStr "") ;;
  evidence <- dict_get method "evidence" (VStr "") ;;
  Ok (VDict [("method", name);
             ("disease", disease_name);
             ("variant", variant_name);
             ("group", description);
             ("stage", stage_name);
             ("indications", indications);
             ("medicines", medicines);
             ("materials", materials);
             ("recommendations", recommendations);
             ("pages", pages);
             ("persuasiveness", persuasiveness);
             ("evidence", evidence);
             ("type", VStr method_type)]).

Definition _format_joint_result (joint disease variant group : value)
  (stage_name : value) : result value :=
  methods <- dict_get joint "methods" (VList []) ;;
  methods <- iterate methods ;;
  method_names <-
    comprehension (fun m => dict_get m "name method" (VStr no_name)) methods ;;
  methods_str <-
    match method_names with
    | [] => Ok "Не указаны"
    | _ => join ", " method_names
    end ;;
  disease_name <- getitem disease "name" ;;
  variant_name <- getitem variant "name" ;;
  description <- getitem group "description" ;;
  indications <- dict_get joint "indications" (VList []) ;;
  recommendations <- dict_get joint "recommendations" (VStr "") ;;
  joint_methods <- dict_get joint "methods" (VList []) ;;
  Ok (VDict [("method", VStr ("Совместные методы: " ++ methods_str));
             ("disease", disease_name);
             ("variant", variant_name);
             ("group", description);
             ("stage", stage_name);
             ("indications", indications);
             ("medicines", VList []);
             ("materials", VList []);
             ("recommendations", recommendations);
             ("pages", VList []);
             ("persuasiveness", VStr "");
             ("evidence", VStr "");
             ("type", VStr "joint");
             ("joint_methods", joint_methods)]).

(** The bodies of the four nested loops of [search_methods_by_keyword],
    innermost first; [results] is the list the loops append to. *)

Definition search_stage (keyword_lower : string)
  (disease variant group : value) (results : list value) (stage : value)
  : result (list value) :=
  stage_name <- getitem stage "name_stage" ;;
  alt_methods <- dict_get stage "alternative methods" (VList []) ;;
  alt_methods <- iterate alt_methods ;;
  results <-
    for_each alt_methods
      (fun results alt_method =>
         matched <- _method_matches alt_method keyword_lower ;;
         if matched then
           r <- _format_method_result alt_method disease variant group
                  stage_name "alternative" ;;
           Ok (results ++ [r])
         else Ok results)
      results ;;
  joint <- dict_get stage "joint methods" (VDict []) ;;
  if truthy joint then
    matched <- _joint_matches joint keyword_lower ;;
    if matched then
      r <- _format_joint_result joint disease variant group stage_name ;;
      Ok (results ++ [r])
    else Ok results
  else Ok results.

Definition search_group (keyword_lower : string) (disease variant : value)
  (results : list value) (group : value) : result (list value) :=
  group_data <- getitem group "data" ;;
  stages <- dict_get group_data "stage" (VList []) ;;
  stages <- iterate stages ;;
  for_each stages (search_stage keyword_lower disease variant group) results.

Definition search_variant (keyword_lower : string) (disease : value)
  (results : list value) (variant : value) : result (list value) :=
  groups <- get_patient_groups variant ;;
  for_each groups (search_group keyword_lower disease variant) results.

Definition search_disease (keyword_lower : string) (results : list value)
  (disease : value) : result (list value) :=
  variants <- getitem disease "type_variant" ;;
  variants <- iterate variants ;;
  for_each variants (search_variant keyword_lower disease) results.

Definition search_methods_by_keyword (knowledge_base : value)
  (keyword : string) : result (list value) :=
  let keyword_lower := lower keyword in
  diseases <- getitem knowledge_base "disease" ;;
  diseases <- iterate diseases ;;
  for_each diseases (search_disease keyword_lower) [].

End Search.

(** [str.lower] on text that is ASCII only: the letters A to Z are mapped
    to a to z and nothing else changes. *)
Definition ascii_lower_char (c : ascii) : ascii :=
  let n := nat_of_ascii c in
  if ((65 <=? n) && (n <=? 90))%nat then ascii_of_nat (n + 32) else c.

Fixpoint ascii_lower (s : string) : string :=
  match s with
  | EmptyString => EmptyString
  | String c s' => String (ascii_lower_char c) (ascii_lower s')
  end.

(** ** The document as a tree

    Total readings of a dict, used to state what the operations return. *)

Definition field (key : string) (obj : value) : option value :=
  match obj with
  | VDict d => lookup key d
  | _ => None
  end.

Definition field_or (key : string) (default : value) (obj : value) : value :=
  match field key obj with
  | Some v => v
  | None => default
  end.

Definition list_field (key : string) (obj : value) : list value :=
  match field key obj with
  | Some (VList l) => l
  | _ => []
  end.

Definition is_dict (obj : value) : bool :=
  match obj with
  | VDict _ => true
  | _ => false
  end.

Definition has_key (key : string) (obj : value) : bool :=
  match field key obj with
  | Some _ => true
  | None => false
  end.

(** The groups of a variant, as the specification words them: the group
    fields in the order of the variant record, each with its groups in list
    order; the synthetic id is the field key, an underscore and the index. *)

Definition entry_id (key : string) (idx : nat) : string :=
  key ++ "_" ++ str_of_nat idx.

Definition entry_of (key : string) (indexed : nat * value) : value :=
  let (idx, group) := indexed in
  VDict [("id", VStr (entry_id key idx));
         ("description",
          field_or "patients_indications" (VStr no_description) group);
         ("data", group)].

Definition group_list (key : string) (v : value) : list value :=
  match v with
  | VList l => if prefix "varik" key then l else []
  | _ => []
  end.

Definition field_groups (item : string * value) : list value :=
  map (entry_of (fst item)) (enumerate (group_list (fst item) (snd item))).

Definition field_ids (item : string * value) : list string :=
  map (fun indexed => entry_id (fst item) (fst indexed))
      (enumerate (group_list (fst item) (snd item))).

Definition expected_groups (items : list (string * value)) : list value :=
  flat_map field_groups items.

Definition expected_ids (items : list (string * value)) : list string :=
  flat_map field_ids items.

(** A group field that holds groups: each of them a dict. *)
Definition groups_are_dicts (item : string * value) : bool :=
  forallb is_dict (group_list (fst item) (snd item)).

(** A field that [get_patient_groups] passes over. *)
Definition holds_no_group (v : value) : bool :=
  match v with
  | VList (_ :: _) => false
  | _ => true
  end.

(** An item of the variant record that is no group field (its key does not
    start with "varik"), or a group field that holds an empty list or no
    list. *)
Definition without_groups (item : string * value) : bool :=
  negb (prefix "varik" (fst item)) || holds_no_group (snd item).

(** The shape of a document (data model): required keys are those read with
    [obj[key]]; every other field may be absent, and where the code iterates
    over it, it is a list when present. *)

Definition list_or_absent (key : string) (obj : value) : bool :=
  match field key obj with
  | None | Some (VList _) => true
  | Some _ => false
  end.

Definition str_or_absent (key : string) (obj : value) : bool :=
  match field key obj with
  | None | Some (VStr _) => true
  | Some _ => false
  end.

Definition method_ok (m : value) : bool :=
  is_dict m && list_or_absent "indications" m && list_or_absent "medicines" m
  && list_or_absent "used material" m.

Definition joint_method_ok (m : value) : bool :=
  is_dict m && str_or_absent "name method" m && list_or_absent "medicines" m
  && list_or_absent "used material" m.

Definition joint_ok (j : value) : bool :=
  is_dict j && list_or_absent "indications" j && list_or_absent "methods" j
  && forallb joint_method_ok (list_field "methods" j).

Definition stage_ok (s : value) : bool :=
  is_dict s && has_key "name_stage" s
  && list_or_absent "alternative methods" s
  && forallb method_ok (list_field "alternative methods" s)
  && match field "joint methods" s with
     | None => true
     | Some j => negb (truthy j) || joint_ok j
     end.

Definition group_ok (g : value) : bool :=
  is_dict g && list_or_absent "stage" g
  && forallb stage_ok (list_field "stage" g).

Definition group_field_ok (item : string * value) : bool :=
  forallb group_ok (group_list (fst item) (snd item)).

Definition variant_ok (v : value) : bool :=
  match v with
  | VDict items => has_key "name" v && forallb group_field_ok items
  | _ => false
  end.

Definition disease_ok (d : value) : bool :=
  has_key "name" d
  && match field "type_variant" d with
     | Some (VList variants) => forallb variant_ok variants
     | _ => false
     end.

Definition document_ok (knowledge_base : value) : bool :=
  match field "disease" knowledge_base with
  | Some (VList diseases) => forallb disease_ok diseases
  | _ => false
  end.

(** Where a stage sits: its disease, its variant and the entry
    [get_patient_groups] made for its group. *)
Record place : Type := Place {
  place_disease : value;
  place_variant : value;
  place_group : value;
  place_stage : value
}.

Definition patient_groups_of (variant : value) : list value :=
  match variant with
  | VDict items => expected_groups items
  | _ => []
  end.

Definition group_places (disease variant group : value) : list place :=
  map (Place disease variant group)
      (list_field "stage" (field_or "data" VNone group)).

Definition variant_places (disease variant : value) : list place :=
  flat_map (group_places disease variant) (patient_groups_of variant).

Definition disease_places (disease : value) : list place :=
  flat_map (variant_places disease) (list_field "type_variant" disease).

Definition places (knowledge_base : value) : list place :=
  flat_map disease_places (list_field "disease" knowledge_base).

(** Every alternative method of the document with its place, in document
    order, and likewise every joint block. *)
Definition stage_alternatives (p : place) : list (place * value) :=
  map (pair p) (list_field "alternative methods" (place_stage p)).

Definition stage_joint (p : place) : list (place * value) :=
  match field "joint methods" (place_stage p) with
  | Some j => [(p, j)]
  | None => []
  end.

Definition alternative_methods (knowledge_base : value)
  : list (place * value) :=
  flat_map stage_alternatives (places knowledge_base).

Definition joint_blocks (knowledge_base : value) : list (place * value) :=
  flat_map stage_joint (places knowledge_base).

Definition nonempty_joint_blocks (knowledge_base : value)
  : list (place * value) :=
  filter (fun o => truthy (snd o)) (joint_blocks knowledge_base).

(** The results of a search, by their type. *)
Definition has_type (t : string) (r : value) : bool :=
  match field "type" r with
  | Some v => eq_str v t
  | None => false
  end.

Definition alternative_results (results : list value) : list value :=
  filter (has_type "alternative") results.

Definition joint_results (results : list value) : list value :=
  filter (has_type "joint") results.

Definition Substring (sub s : string) : Prop :=
  exists before after : string, s = (before ++ sub ++ after)%string.

(** A match of the search: an alternative method or a joint block, with
    its place. *)
Inductive hit : Type :=
| AltHit (o : place * value)
| JointHit (o : place * value).

Definition alt_part (hs : list hit) : list (place * value) :=
  flat_map (fun h => match h with AltHit o => [o] | JointHit _ => [] end) hs.

Definition joint_part (hs : list hit) : list (place * value) :=
  flat_map (fun h => match h with AltHit _ => [] | JointHit o => [o] end) hs.

Section SearchSpec.

Variable lower : string -> string.
Variable repr : value -> string.

(** A field read as text, the empty string when absent; a list field read
    as the texts of its elements, none when absent. *)
Definition text (key : string) (obj : value) : string :=
  str_of repr (field_or key (VStr "") obj).

Definition texts (key : string) (obj : value) : list string :=
  map (str_of repr) (list_field key obj).

(** Keyword K occurs in a text, case-insensitively. *)
Definition mentions (K : string) (t : string) : Prop :=
  Substring (lower K) (lower t).

Definition method_mentions (K : string) (m : value) : Prop :=
  mentions K (text "name method" m)
  \/ Exists (mentions K) (texts "indications" m)
  \/ Exists (mentions K) (texts "medicines" m)
  \/ Exists (mentions K) (texts "used material" m)
  \/ mentions K (text "recommendations" m).

Definition joint_method_mentions (K : string) (m : value) : Prop :=
  mentions K (text "name method" m)
  \/ Exists (mentions K) (texts "medicines" m)
  \/ Exists (mentions K) (texts "used material" m).

Definition joint_mentions (K : string) (j : value) : Prop :=
  Exists (mentions K) (texts "indications" j)
  \/ mentions K (text "recommendations" j)
  \/ Exists (joint_method_mentions K) (list_field "methods" j).

(** The same tests as booleans. *)
Definition mentionsb (K : string) (t : string) : bool :=
  str_in (lower K) (lower t).

Definition method_mentionsb (K : string) (m : value) : bool :=
  mentionsb K (text "name method" m)
  || existsb (mentionsb K) (texts "indications" m)
  || existsb (mentionsb K) (texts "medicines" m)
  || existsb (mentionsb K) (texts "used material" m)
  || mentionsb K (text "recommendations" m).

Definition joint_method_mentionsb (K : string) (m : value) : bool :=
  mentionsb K (text "name method" m)
  || existsb (mentionsb K) (texts "medicines" m)
  || existsb (mentionsb K) (texts "used material" m).

Definition joint_mentionsb (K : string) (j : value) : bool :=
  existsb (mentionsb K) (texts "indications" j)
  || mentionsb K (text "recommendations" j)
  || existsb (joint_method_mentionsb K) (list_field "methods" j).

(** A search result is the formatted form of a matched method or block. *)
Definition formats_method (o : place * value) (r : value) : Prop :=
  let (p, m) := o in
  exists stage_name,
    getitem (place_stage p) "name_stage" = Ok stage_name
    /\ _format_method_result m (place_disease p) (place_variant p)
         (place_group p) stage_name "alternative" = Ok r.

Definition formats_joint (o : place * value) (r : value) : Prop :=
  let (p, j) := o in
  exists stage_name,
    getitem (place_stage p) "name_stage" = Ok stage_name
    /\ _format_joint_result j (place_disease p) (place_variant p)
         (place_group p) stage_name = Ok r.

(** What a stage contributes to a search for K: its matching alternative
    methods, then its joint block when that is non-empty and matches. *)
Definition stage_hits (K : string) (p : place) : list hit :=
  map AltHit
      (filter (fun o => method_mentionsb K (snd o))
              (stage_alternatives p))
  ++ map JointHit
       (filter (fun o => truthy (snd o) && joint_mentionsb K (snd o))
               (stage_joint p)).

Definition hits (K : string) (knowledge_base : value) : list hit :=
  flat_map (stage_hits K) (places knowledge_base).

End SearchSpec.

(** The data model's assumption on disease names: no two diseases of the
    document bear the same name. *)
Definition names_unique (diseases : list value) : Prop :=
  forall i j d d',
    nth_error diseases i = Some d -> nth_error diseases j = Some d' ->
    field "name" d = field "name" d' -> i = j.

(** Character c occurs in s. *)
Fixpoint has_char (c : ascii) (s : string) : bool :=
  match s with
  | EmptyString => false
  | String c' s' => Ascii.eqb c' c || has_char c s'
  end.

(** [isinstance(obj, str)]. *)
Definition is_str (obj : value) : bool :=
  match obj with
  | VStr _ => true
  | _ => false
  end.

(** Result r is the formatted form of hit h. *)
Definition formats (h : hit) (r : value) : Prop :=
  match h with
  | AltHit o => formats_method o r
  | JointHit o => formats_joint o r
  end.

(** The record with a missing field filled in with its default. *)
Definition with_default (key : string) (default : value) (obj : value)
  : value :=
  match obj with
  | VDict d =>
      match lookup key d with
      | Some _ => obj
      | None => VDict (d ++ [(key, default)])
      end
  | _ => obj
  end.

(** The optional fields of a method, of a joint block and of a stage, each
    with the default the code reads it with. *)
Definition method_defaults : list (string * value) :=
  [("indications", VList []); ("medicines", VList []);
   ("used material", VList []); ("recommendations", VStr "");
   ("pages", VList []); ("persuasiveness", VStr ""); ("evidence", VStr "")].

Definition joint_defaults : list (string * value) :=
  [("indications", VList []); ("recommendations", VStr "");
   ("methods", VList [])].

Definition stage_defaults : list (string * value) :=
  [("alternative methods", VList []); ("joint methods", VDict [])].

(** ** Sample documents *)

(** In the documents below every field read as text is a [str], so [str()]
    of another object is never taken. *)
Definition no_repr (obj : value) : string := "".

(** Text made of ASCII characters only. *)
Fixpoint ascii_only (s : string) : bool :=
  match s with
  | EmptyString => true
  | String c s' => (nat_of_ascii c <? 128)%nat && ascii_only s'
  end.

Definition scenario_method : value :=
  VDict [("name method", VStr "Cast immobilization");
         ("medicines", VList [VStr "Ibuprofen"])].

Definition scenario_stage : value :=
  VDict [("name_stage", VStr "Conservative treatment");
         ("alternative methods", VList [scenario_method])].

Definition scenario_group : value :=
  VDict [("patients_indications", VStr "Adults without comorbidity");
         ("stage", VList [scenario_stage])].

(** The variant and the document, with the name of the group field left
    open. *)
Definition scenario_variant (group_field : string) : value :=
  VDict [("name", VStr "Type A");
         ("ICD-10_code", VStr "S52.5");
         (group_field, VList [scenario_group])].

Definition scenario_document (group_field : string) : value :=
  VDict [("disease",
          VList [VDict [("name", VStr "Closed fracture");
                        ("type_variant",
                         VList [scenario_variant group_field])]])].

(** A document with fields missing at every level: a method without any
    field, a joint block whose second method has no name, a group without
    description, a group without stages, an empty group field and a field
    of the variant that is no list. *)
Definition sample_joint : value :=
  VDict [("indications", VList [VStr "Open fracture"]);
         ("methods",
          VList [VDict [("name method", VStr "Debridement");
                        ("indications", VList [VStr "Ibuprofen intolerance"])];
                 VDict [("medicines", VList [VStr "Cefazolin"])]])].

Definition sample_stage : value :=
  VDict [("name_stage", VStr "Surgery");
         ("alternative methods",
          VList [VDict [("name method", VStr "Plate fixation");
                        ("used material", VList [VStr "Titanium plate"])];
                 VDict []]);
         ("joint methods", sample_joint)].

Definition sample_items : list (string * value) :=
  [("name", VStr "Type B");
   ("varik1", VList [VDict [("stage", VList [sample_stage])]; VDict []]);
   ("varik2", VList []);
   ("varik_note", VStr "see page 12");
   ("varik3", VList [VDict [("patients_indications", VStr "Children")]])].

Definition sample_diseases : list value :=
  [VDict [("name", VStr "Open fracture");
          ("type_variant", VList [VDict sample_items])];
   VDict [("name", VStr "Closed fracture"); ("type_variant", VList [])]].

Definition sample_document : value :=
  VDict [("disease", VList sample_diseases)].






(** ** The constructor *)

Section Load.

(** The file system and the parser are left open: [open] gives the file at
    a path or raises (FileNotFoundError, PermissionError, ...), [json.load]
    gives the document a file holds or raises (JSONDecodeError, ...).  An
    exception of either leaves the constructor without a planner. *)
Variable load_error : Type.
Variable file : Type.
Variable open_file : string -> load_error + file.
Variable json_load : file -> load_error + value.



End Load.



(** ** The totals of the knowledge-base page ([main], the loop over the
    groups of a variant) *)

(** [len(obj)]. *)
Definition len (obj : value) : result nat :=
  match obj with
  | VList l => Ok (List.length l)
  | VStr s => Ok (List.length (chars_of s))
  | VDict d => Ok (List.length d)
  | _ => Raise TypeError
  end.

(** The bodies of the two loops; the state is
    [(total_stages, total_alt_methods, total_joint_methods)]. *)
Definition count_stage (totals : nat * nat * nat) (stage : value)
  : result (nat * nat * nat) :=
  let '(total_stages, total_alt_methods, total_joint_methods) := totals in
  alt_methods <- dict_get stage "alternative methods" (VList []) ;;
  n <- len alt_methods ;;
  let total_alt_methods := total_alt_methods + n in
  joint <- dict_get stage "joint methods" (VDict []) ;;
  methods <- dict_get joint "methods" VNone ;;
  if truthy methods then
    methods <- getitem joint "methods" ;;
    m <- len methods ;;
    Ok (total_stages, total_alt_methods, total_joint_methods + m)
  else Ok (total_stages, total_alt_methods, total_joint_methods).

Definition count_group (totals : nat * nat * nat) (group : value)
  : result (nat * nat * nat) :=
  let '(total_stages, total_alt_methods, total_joint_methods) := totals in
  group_data <- getitem group "data" ;;
  stages <- dict_get group_data "stage" (VList []) ;;
  n <- len stages ;;
  let total_stages := total_stages + n in
  stages <- iterate stages ;;
  for_each stages count_stage
    (total_stages, total_alt_methods, total_joint_methods).

Definition knowledge_base_totals (groups : list value)
  : result (nat * nat * nat) :=
  for_each groups count_group (0, 0, 0).

(** ** The treatment report *)

Definition nl : string := String "010" "".

(** [s.replace(old, new)] for one-character [old] and [new]. *)
Fixpoint replace (old new : ascii) (s : string) : string :=
  match s with
  | EmptyString => EmptyString
  | String c s' =>
      String (if Ascii.eqb c old then new else c) (replace old new s')
  end.

(** [obj.replace(' ', '_')]: only a [str] has the method. *)
Definition replace_spaces (obj : value) : result string :=
  match obj with
  | VStr s => Ok (replace " " "_" s)
  | _ => Raise AttributeError
  end.

(** The data, the file name and the MIME type given to
    [st.download_button]. *)
Record download_button : Type := DownloadButton {
  data : string;
  file_name : string;
  mime : string
}.

Section Report.

Variable repr : value -> string.

(** [f"{obj}"]. *)
Definition fmt (obj : value) : string := str_of repr obj.

(** ["\n".join(f"• {x}" for x in items)]. *)
Definition bullets (items : list value) : string :=
  String.concat nl (map (fun x => ("• " ++ fmt x)%string) items).

(** The body of the loop over the alternative methods of a stage. *)
Definition report_alt_method (report_text : string) (method : value)
  : result string :=
  name <- dict_get method "name method" (VStr no_name) ;;
  let report_text :=
    (report_text ++ (nl ++ "**" ++ fmt name ++ "**" ++ nl))%string in
  indications <- dict_get method "indications" VNone ;;
  report_text <-
    (if truthy indications then
       indications <- getitem method "indications" ;;
       indications <- iterate indications ;;
       Ok (report_text
           ++ ("Показания:" ++ nl ++ bullets indications ++ nl))%string
     else Ok report_text) ;;
  medicines <- dict_get method "medicines" VNone ;;
  report_text <-
    (if truthy medicines then
       medicines <- getitem method "medicines" ;;
       medicines <- iterate medicines ;;
       Ok (report_text
           ++ ("Лекарства:" ++ nl ++ bullets medicines ++ nl))%string
     else Ok report_text) ;;
  materials <- dict_get method "used material" VNone ;;
  report_text <-
    (if truthy materials then
       materials <- getitem method "used material" ;;
       materials <- iterate materials ;;
       Ok (report_text
           ++ ("Материалы:" ++ nl ++ bullets materials ++ nl))%string
     else Ok report_text) ;;
  recommendations <- dict_get method "recommendations" VNone ;;
  if truthy recommendations then
    recommendations <- getitem method "recommendations" ;;
    Ok (report_text ++ ("Рекомендации: " ++ fmt recommendations ++ nl))%string
  else Ok report_text.

(** The body of the loop over the methods of a joint block. *)
Definition report_joint_method (report_text : string) (method : value)
  : result string :=
  name <- dict_get method "name method" (VStr no_name) ;;
  let report_text := (report_text ++ (nl ++ "* " ++ fmt name ++ nl))%string in
  medicines <- dict_get method "medicines" VNone ;;
  report_text <-
    (if truthy medicines then
       medicines <- getitem method "medicines" ;;
       medicines <- iterate medicines ;;
       joined <- join ", " medicines ;;
       Ok (report_text ++ ("  Лекарства: " ++ joined ++ nl))%string
     else Ok report_text) ;;
  materials <- dict_get method "used material" VNone ;;
  if truthy materials then
    materials <- getitem method "used material" ;;
    materials <- iterate materials ;;
    joined <- join ", " materials ;;
    Ok (report_text ++ ("  Материалы: " ++ joined ++ nl))%string
  else Ok report_text.

(** The body of the loop over the stages of the plan. *)
Definition report_stage (report_text : string) (stage : value)
  : result string :=
  stage_name <- getitem stage "name_stage" ;;
  let report_text :=
    (report_text ++ (nl ++ "### " ++ fmt stage_name ++ nl))%string in
  alt_methods <- dict_get stage "alternative methods" (VList []) ;;
  report_text <-
    (if truthy alt_methods then
       let report_text :=
         (report_text ++ (nl ++ "**Альтернативные методы:**" ++ nl))%string in
       methods <- iterate alt_methods ;;
       for_each methods report_alt_method report_text
     else Ok report_text) ;;
  joint <- dict_get stage "joint methods" (VDict []) ;;
  shown <-
    (if truthy joint then
       methods <- dict_get joint "methods" VNone ;; Ok (truthy methods)
     else Ok false) ;;
  if shown : bool then
    let report_text :=
      (report_text ++ (nl ++ "**Совместные методы:**" ++ nl))%string in
    indications <- dict_get joint "indications" VNone ;;
    report_text <-
      (if truthy indications then
         indications <- getitem joint "indications" ;;
         indications <- iterate indications ;;
         Ok (report_text
             ++ ("Общие показания:" ++ nl ++ bullets indications ++ nl))%string
       else Ok report_text) ;;
    recommendations <- dict_get joint "recommendations" VNone ;;
    report_text <-
      (if truthy recommendations then
         recommendations <- getitem joint "recommendations" ;;
         Ok (report_text
             ++ ("Общие рекомендации: " ++ fmt recommendations ++ nl))%string
       else Ok report_text) ;;
    methods <- getitem joint "methods" ;;
    methods <- iterate methods ;;
    for_each methods report_joint_method report_text
  else Ok report_text.

(** The text the report starts with. *)
Definition report_head (plan_variant icd description : value) : string :=
  (nl ++ "# ОТЧЕТ О ПЛАНЕ ЛЕЧЕНИЯ" ++ nl
   ++ nl ++ "## Основная информация" ++ nl
   ++ "**Тип перелома:** " ++ fmt plan_variant ++ nl
   ++ "**Код МКБ-10:** " ++ fmt icd ++ nl
   ++ nl ++ "## Показания для данной группы" ++ nl
   ++ fmt description ++ nl
   ++ nl ++ "## План лечения" ++ nl)%string.

(** The report text and the download offered for it; the calls that only
    render ([st.markdown], [st.header]) are left out. *)
Definition generate_treatment_report (group_plan variant : value)
  : result download_button :=
  plan_variant <- getitem group_plan "variant" ;;
  icd <- getitem variant "ICD-10_code" ;;
  description <- getitem group_plan "group_description" ;;
  let report_text := report_head plan_variant icd description in
  stages <- getitem group_plan "stages" ;;
  stages <- iterate stages ;;
  report_text <- for_each stages report_stage report_text ;;
  plan_variant <- getitem group_plan "variant" ;;
  name <- replace_spaces plan_variant ;;
  Ok (DownloadButton report_text
        ("treatment_plan_" ++ name ++ ".md") "text/markdown").

End Report.

(** A variant with contraindications whose group fields hold no group. *)
Definition variant_without_groups : list (string * value) :=
  [("name", VStr "Type D");
   ("ICD-10_code", VStr "S52.6");
   ("general_contraindications", VList [VStr "Pregnancy"; VStr "Allergy"]);
   ("varik1", VList []);
   ("varik2", VStr "none")].


(** A plan as get_group_plan makes it, and a stage whose joint block has
    indications but no methods. *)
Definition sample_plan : value :=
  VDict [("variant", VStr "Type B open");
         ("group_description", VStr "Adults");
         ("stages", VList [sample_stage])].

Definition sample_variant_record : value :=
  VDict [("name", VStr "Type B open"); ("ICD-10_code", VStr "S52.5")].

Definition stage_with_bare_joint : list (string * value) :=
  [("name_stage", VStr "Surgery");
   ("joint methods", VDict [("indications", VList [VStr "Open fracture"])])].

(** ** Further notions used to state properties *)

(** l is l' with some of its elements left out. *)
Inductive subsequence {A : Type} : list A -> list A -> Prop :=
| subsequence_nil : subsequence [] []
| subsequence_keep (x : A) (l l' : list A) :
    subsequence l l' -> subsequence (x :: l) (x :: l')
| subsequence_skip (x : A) (l l' : list A) :
    subsequence l l' -> subsequence l (x :: l').

(** The dict without a key. *)
Fixpoint without_key (key : string) (d : list (string * value))
  : list (string * value) :=
  match d with
  | [] => []
  | (k, v) :: rest =>
      if String.eqb k key then without_key key rest
      else (k, v) :: without_key key rest
  end.

(** Text put before the text a computation returns. *)
Definition prepend (before : string) (r : result string) : result string :=
  match r with
  | Ok t => Ok (before ++ t)%string
  | Raise e => Raise e
  end.

(** The keys every search result has. *)
Definition result_keys : list string :=
  ["method"; "disease"; "variant"; "group"; "stage"; "indications";
   "medicines"; "materials"; "recommendations"; "pages"; "persuasiveness";
   "evidence"; "type"].

(** The joint block of a stage, the empty dict when absent. *)
Definition joint_of (stage : value) : value :=
  field_or "joint methods" (VDict []) stage.

(** What the report asks of a stage beyond [stage_ok]: the medicines and
    materials of the methods of its joint block are joined, so they are
    [str]s. *)
Definition joined_texts_ok (stage : value) : bool :=
  forallb
    (fun m => forallb is_str (list_field "medicines" m)
              && forallb is_str (list_field "used material" m))
    (list_field "methods" (joint_of stage)).

(** What the totals ask of a stage beyond [stage_ok]: its joint block, when
    present, is a dict. *)
Definition joint_is_dict (stage : value) : bool :=
  is_dict (joint_of stage).

(** * Properties *)

(** ** Loops and comprehensions *)

Lemma for_each_app {A S : Type} (body : S -> A -> result S) (xs ys : list A)
  (s : S) :
  for_each (xs ++ ys) body s = (s' <- for_each xs body s ;; for_each ys body s').
Proof.
  revert s; induction xs as [|x xs IH]; intros s; simpl.
  - reflexivity.
  - destruct (body s x) as [s'|e]; simpl; [apply IH | reflexivity].
Qed.

(** A loop whose body appends the outputs related to its item appends, in
    all, the outputs related to all the items, in order. *)
Lemma for_each_collect {A H R : Type} (rel : H -> R -> Prop)
  (hits : A -> list H) (body : list R -> A -> result (list R)) (xs : list A) :
  (forall x, In x xs -> forall acc, exists out,
      body acc x = Ok (acc ++ out) /\ Forall2 rel (hits x) out) ->
  forall acc, exists out,
    for_each xs body acc = Ok (acc ++ out)
    /\ Forall2 rel (flat_map hits xs) out.
Proof.
  induction xs as [|x xs IH]; intros Hbody acc; simpl.
  - exists []. rewrite app_nil_r. split; [reflexivity | constructor].
  - destruct (Hbody x (or_introl eq_refl) acc) as (out1 & E1 & F1).
    rewrite E1; simpl.
    destruct (IH (fun y Hy => Hbody y (or_intror Hy)) (acc ++ out1))
      as (out2 & E2 & F2).
    exists (out1 ++ out2). rewrite E2, app_assoc. split; [reflexivity|].
    apply Forall2_app; assumption.
Qed.

Lemma comprehension_Forall2 {A B : Type} (f : A -> result B) (g : A -> B)
  (xs : list A) :
  (forall x, In x xs -> f x = Ok (g x)) ->
  comprehension f xs = Ok (map g xs).
Proof.
  induction xs as [|x xs IH]; intros Hf; simpl.
  - reflexivity.
  - rewrite (Hf x (or_introl eq_refl)); simpl.
    rewrite IH by (intros y Hy; apply Hf; right; exact Hy).
    reflexivity.
Qed.

(** ** Dict access *)

Lemma getitem_field (obj : value) (key : string) (v : value) :
  field key obj = Some v -> getitem obj key = Ok v.
Proof.
  destruct obj; simpl; try discriminate.
  intros ->. reflexivity.
Qed.

Lemma getitem_has_key (obj : value) (key : string) :
  has_key key obj = true -> getitem obj key = Ok (field_or key VNone obj).
Proof.
  unfold has_key, field_or. destruct (field key obj) as [v|] eqn:E.
  - intros _. apply getitem_field, E.
  - discriminate.
Qed.

Lemma dict_get_field_or (obj : value) (key : string) (default : value) :
  is_dict obj = true -> dict_get obj key default = Ok (field_or key default obj).
Proof.
  destruct obj; simpl; try discriminate.
  intros _. unfold field_or; simpl. destruct (lookup key d); reflexivity.
Qed.

Lemma iterate_list_field (obj : value) (key : string) :
  list_or_absent key obj = true ->
  iterate (field_or key (VList []) obj) = Ok (list_field key obj).
Proof.
  unfold list_or_absent, field_or, list_field.
  destruct (field key obj) as [[]|]; simpl; try discriminate; reflexivity.
Qed.

(** ** Navigation *)

(** C5: the plan made by get_group_plan for a group record carries, under
    "stages", the record's 'stage' field when it is present and the empty
    list otherwise, untouched; the variant name and the description (the
    empty string when absent) are carried over as they are. *)
Theorem get_group_plan_stages (variant_name : string)
  (group_data : list (string * value)) :
  exists plan,
    get_group_plan variant_name (VDict group_data) = Ok plan
    /\ getitem plan "stages"
       = Ok (match lookup "stage" group_data with
             | Some stages => stages
             | None => VList []
             end)
    /\ getitem plan "variant" = Ok (VStr variant_name)
    /\ getitem plan "group_description"
       = Ok (match lookup "patients_indications" group_data with
             | Some description => description
             | None => VStr ""
             end).
Proof.
  unfold get_group_plan; simpl.
  destruct (lookup "patients_indications" group_data);
    destruct (lookup "stage" group_data); simpl;
    eexists; repeat split; reflexivity.
Qed.

Lemma get_diseases_names (diseases : list value) :
  forallb (has_key "name") diseases = true ->
  comprehension (fun disease => getitem disease "name") diseases
  = Ok (map (field_or "name" VNone) diseases).
Proof.
  intros Hn. apply comprehension_Forall2.
  intros d Hd. apply getitem_has_key.
  rewrite forallb_forall in Hn. apply Hn, Hd.
Qed.

Lemma nth_error_map_inv {A B : Type} (f : A -> B) (l : list A) (i : nat) (b : B) :
  nth_error (map f l) i = Some b ->
  exists a, nth_error l i = Some a /\ f a = b.
Proof.
  rewrite nth_error_map. destruct (nth_error l i) as [a|]; simpl.
  - intros [= <-]. exists a. split; reflexivity.
  - discriminate.
Qed.

(** C6: get_diseases returns one entry per disease of the document, the
    i-th entry being the name of the i-th disease (source order); when the
    names of the diseases are pairwise distinct, as the data model assumes,
    the name of every disease stands at exactly one position of the
    result. *)
Theorem get_diseases_source_order (knowledge_base : value)
  (diseases : list value) :
  field "disease" knowledge_base = Some (VList diseases) ->
  forallb (has_key "name") diseases = true ->
  exists names,
    get_diseases knowledge_base = Ok names
    /\ Forall2 (fun d n => field "name" d = Some n) diseases names
    /\ (names_unique diseases ->
        forall i d n, nth_error diseases i = Some d ->
          field "name" d = Some n ->
          nth_error names i = Some n
          /\ forall j, nth_error names j = Some n -> j = i).
Proof.
  intros Hkb Hn.
  exists (map (field_or "name" VNone) diseases).
  assert (Hname : forall d, In d diseases ->
            field "name" d = Some (field_or "name" VNone d)).
  { intros d Hd. rewrite forallb_forall in Hn. specialize (Hn d Hd).
    unfold has_key, field_or in *. destruct (field "name" d); [reflexivity | discriminate]. }
  split; [|split].
  - unfold get_diseases. rewrite (getitem_field _ _ _ Hkb); simpl.
    apply get_diseases_names, Hn.
  - clear Hkb Hn. induction diseases as [|d ds IH]; simpl; constructor.
    + apply Hname. left; reflexivity.
    + apply IH. intros d' Hd'. apply Hname. right; exact Hd'.
  - intros Huniq i d n Hi Hd. split.
    + rewrite nth_error_map, Hi; simpl. unfold field_or. rewrite Hd. reflexivity.
    + intros j Hj. apply nth_error_map_inv in Hj. destruct Hj as (d' & Hj & Hd').
      apply (Huniq j i d' d Hj Hi).
      rewrite Hd, (Hname d' (nth_error_In _ _ Hj)), Hd'. reflexivity.
Qed.

Lemma get_disease_variants_loop_none (diseases : list value) (name : string) :
  forallb (has_key "name") diseases = true ->
  (forall d, In d diseases -> field "name" d <> Some (VStr name)) ->
  get_disease_variants_loop diseases name = Ok (VList []).
Proof.
  induction diseases as [|d ds IH]; simpl; intros Hn Hno.
  - reflexivity.
  - apply andb_prop in Hn. destruct Hn as [Hd Hn].
    rewrite (getitem_has_key _ _ Hd); simpl.
    assert (E : eq_str (field_or "name" VNone d) name = false).
    { specialize (Hno d (or_introl eq_refl)).
      unfold has_key, field_or in *. destruct (field "name" d) as [v|]; [|discriminate].
      destruct v; simpl; try reflexivity.
      destruct (String.eqb_spec s name) as [->|]; [|reflexivity].
      exfalso; apply Hno; reflexivity. }
    rewrite E. apply IH; [exact Hn|].
    intros d' Hd'. apply Hno. right; exact Hd'.
Qed.

Lemma get_disease_variants_loop_found (before after : list value)
  (d variants : value) (name : string) :
  forallb (has_key "name") before = true ->
  (forall d', In d' before -> field "name" d' <> Some (VStr name)) ->
  field "name" d = Some (VStr name) ->
  field "type_variant" d = Some variants ->
  get_disease_variants_loop (before ++ d :: after) name = Ok variants.
Proof.
  induction before as [|b bs IH]; simpl; intros Hn Hno Hd Hv.
  - rewrite (getitem_field _ _ _ Hd); simpl. rewrite String.eqb_refl.
    apply getitem_field, Hv.
  - apply andb_prop in Hn. destruct Hn as [Hb Hn].
    rewrite (getitem_has_key _ _ Hb); simpl.
    assert (E : eq_str (field_or "name" VNone b) name = false).
    { specialize (Hno b (or_introl eq_refl)).
      unfold has_key, field_or in *. destruct (field "name" b) as [v|]; [|discriminate].
      destruct v; simpl; try reflexivity.
      destruct (String.eqb_spec s name) as [->|]; [|reflexivity].
      exfalso; apply Hno; reflexivity. }
    rewrite E. apply IH; try assumption.
    intros d' Hd'. apply Hno. right; exact Hd'.
Qed.

(** C7: for a document whose diseases all bear a name, get_disease_variants
    returns the empty list, raising nothing, when no disease bears the name
    asked for; when one does, it returns the variant list of the (first)
    disease of that name, as it stands in the document. *)
Theorem get_disease_variants_lookup (knowledge_base : value)
  (diseases : list value) (name : string) :
  field "disease" knowledge_base = Some (VList diseases) ->
  forallb (has_key "name") diseases = true ->
  ((forall d, In d diseases -> field "name" d <> Some (VStr name)) ->
   get_disease_variants knowledge_base name = Ok (VList []))
  /\ (forall before d after variants,
        diseases = before ++ d :: after ->
        (forall d', In d' before -> field "name" d' <> Some (VStr name)) ->
        field "name" d = Some (VStr name) ->
        field "type_variant" d = Some variants ->
        get_disease_variants knowledge_base name = Ok variants).
Proof.
  intros Hkb Hn. unfold get_disease_variants.
  rewrite (getitem_field _ _ _ Hkb); simpl. split.
  - intros Hno. apply get_disease_variants_loop_none; assumption.
  - intros before d after variants -> Hno Hd Hv.
    apply get_disease_variants_loop_found; try assumption.
    rewrite forallb_app in Hn. apply andb_prop in Hn. apply Hn.
Qed.

(** ** Patient groups *)

Lemma for_each_flat_map {A R : Type} (outputs : A -> list R)
  (body : list R -> A -> result (list R)) (xs : list A) :
  (forall x, In x xs -> forall acc, body acc x = Ok (acc ++ outputs x)) ->
  forall acc, for_each xs body acc = Ok (acc ++ flat_map outputs xs).
Proof.
  induction xs as [|x xs IH]; intros Hbody acc; simpl.
  - rewrite app_nil_r. reflexivity.
  - rewrite (Hbody x (or_introl eq_refl)); simpl.
    rewrite IH by (intros y Hy; apply Hbody; right; exact Hy).
    rewrite app_assoc. reflexivity.
Qed.

Lemma group_entry_of (key : string) (idx : nat) (group : value) :
  is_dict group = true ->
  group_entry key idx group = Ok (entry_of key (idx, group)).
Proof.
  intros Hd. unfold group_entry.
  rewrite (dict_get_field_or _ _ _ Hd). reflexivity.
Qed.

Lemma enumerate_entries (key : string) (l : list value) (start : nat)
  (acc : list value) :
  forallb is_dict l = true ->
  for_each (enumerate_from start l)
    (fun groups '(idx, group) =>
       entry <- group_entry key idx group ;; Ok (groups ++ [entry]))
    acc
  = Ok (acc ++ map (entry_of key) (enumerate_from start l)).
Proof.
  revert start acc. induction l as [|g l IH]; intros start acc Hd; simpl.
  - rewrite app_nil_r. reflexivity.
  - simpl in Hd. apply andb_prop in Hd. destruct Hd as [Hg Hd].
    rewrite (group_entry_of _ _ _ Hg); simpl.
    rewrite (IH _ _ Hd), <- app_assoc. reflexivity.
Qed.

(** The body of the loop over the items of a variant. *)
Lemma get_patient_groups_item (item : string * value) (acc : list value) :
  groups_are_dicts item = true ->
  (let '(key, value) := item in
   match value with
   | VList l =>
       if prefix "varik" key && (0 <? List.length l)%nat then
         for_each (enumerate l)
           (fun groups '(idx, group) =>
              entry <- group_entry key idx group ;; Ok (groups ++ [entry]))
           acc
       else Ok acc
   | _ => Ok acc
   end) = Ok (acc ++ field_groups item).
Proof.
  destruct item as [key v]. unfold groups_are_dicts, field_groups, group_list; simpl.
  destruct v; try (intros _; rewrite app_nil_r; reflexivity).
  destruct (prefix "varik" key); simpl.
  - intros Hd. destruct l as [|g l].
    + simpl. rewrite app_nil_r. reflexivity.
    + change (0 <? List.length (g :: l))%nat with true; cbv iota.
      apply enumerate_entries, Hd.
  - intros _. rewrite app_nil_r. reflexivity.
Qed.

Lemma get_patient_groups_expected (items : list (string * value)) :
  forallb groups_are_dicts items = true ->
  get_patient_groups (VDict items) = Ok (expected_groups items).
Proof.
  intros Hd. unfold get_patient_groups, expected_groups; simpl.
  rewrite (for_each_flat_map field_groups); [reflexivity|].
  intros item Hin acc. rewrite forallb_forall in Hd.
  rewrite <- (get_patient_groups_item item acc (Hd item Hin)).
  destruct item; reflexivity.
Qed.

(** Decimal numerals hold no underscore, so an id splits in one way only
    into key and index. *)

Lemma has_char_append (c : ascii) (s t : string) :
  has_char c (s ++ String c t) = true.
Proof.
  induction s as [|c' s IH]; simpl.
  - rewrite Ascii.eqb_refl. reflexivity.
  - rewrite IH. apply orb_true_r.
Qed.

Lemma numeral_no_separator (d : uint) :
  has_char "_" (NilEmpty.string_of_uint d) = false.
Proof.
  induction d; simpl; auto.
Qed.

Lemma str_of_nat_inj (n m : nat) : str_of_nat n = str_of_nat m -> n = m.
Proof.
  unfold str_of_nat. intros E.
  apply Unsigned.to_uint_inj.
  assert (H : Some (Nat.to_uint n) = Some (Nat.to_uint m)).
  { rewrite <- !NilEmpty.usu, E. reflexivity. }
  injection H as H. exact H.
Qed.

Lemma split_at_separator (k1 k2 d1 d2 : string) :
  has_char "_" d1 = false -> has_char "_" d2 = false ->
  (k1 ++ "_" ++ d1 = k2 ++ "_" ++ d2)%string ->
  k1 = k2 /\ d1 = d2.
Proof.
  intros H1 H2. revert k2.
  induction k1 as [|c k1 IH]; intros [|c' k2]; simpl; intros E.
  - injection E as E. split; [reflexivity | exact E].
  - injection E as <- E. rewrite E in H1.
    rewrite has_char_append in H1. discriminate.
  - injection E as -> E. rewrite <- E in H2.
    rewrite has_char_append in H2. discriminate.
  - injection E as -> E. destruct (IH _ E) as [-> ->]. split; reflexivity.
Qed.

Lemma entry_id_inj (k1 k2 : string) (i1 i2 : nat) :
  entry_id k1 i1 = entry_id k2 i2 -> k1 = k2 /\ i1 = i2.
Proof.
  unfold entry_id. intros E.
  apply split_at_separator in E; try apply numeral_no_separator.
  destruct E as [-> E]. split; [reflexivity | apply str_of_nat_inj, E].
Qed.

Lemma enumerate_from_indices {A : Type} (l : list A) (start : nat) :
  map fst (enumerate_from start l) = seq start (List.length l).
Proof.
  revert start. induction l as [|x l IH]; intros start; simpl.
  - reflexivity.
  - rewrite IH. reflexivity.
Qed.

Lemma NoDup_append {A : Type} (l1 l2 : list A) :
  NoDup l1 -> NoDup l2 -> (forall x, In x l1 -> ~ In x l2) -> NoDup (l1 ++ l2).
Proof.
  induction l1 as [|a l1 IH]; simpl; intros N1 N2 Hdis.
  - exact N2.
  - inversion N1 as [|? ? Ha N1']; subst. constructor.
    + rewrite in_app_iff. intros [Hin|Hin]; [exact (Ha Hin)|].
      apply (Hdis a); [left; reflexivity | exact Hin].
    + apply IH; try assumption. intros x Hx. apply Hdis. right; exact Hx.
Qed.

Lemma field_ids_key (item : string * value) (id : string) :
  In id (field_ids item) -> exists i, id = entry_id (fst item) i.
Proof.
  unfold field_ids. rewrite in_map_iff. intros ([i g] & <- & _).
  exists i. reflexivity.
Qed.

Lemma field_ids_NoDup (item : string * value) : NoDup (field_ids item).
Proof.
  unfold field_ids.
  rewrite <- (map_map fst (entry_id (fst item))).
  unfold enumerate. rewrite enumerate_from_indices.
  apply NoDup_map_NoDup_ForallPairs; [|apply seq_NoDup].
  intros i j _ _ E. apply entry_id_inj in E. apply E.
Qed.

Lemma expected_ids_NoDup (items : list (string * value)) :
  dict_keys_unique items -> NoDup (expected_ids items).
Proof.
  unfold dict_keys_unique, expected_ids.
  induction items as [|item items IH]; simpl; intros Hk.
  - constructor.
  - inversion Hk as [|? ? Hnotin Hk']; subst.
    apply NoDup_append; [apply field_ids_NoDup | apply IH, Hk' |].
    intros id Hid Hrest. apply field_ids_key in Hid. destruct Hid as (i & ->).
    apply in_flat_map in Hrest. destruct Hrest as (item' & Hin & Hid').
    apply field_ids_key in Hid'. destruct Hid' as (i' & E).
    apply entry_id_inj in E. destruct E as [E _].
    apply Hnotin. rewrite E. apply in_map, Hin.
Qed.

Lemma expected_groups_ids (items : list (string * value)) :
  Forall2 (fun g id => getitem g "id" = Ok (VStr id))
          (expected_groups items) (expected_ids items).
Proof.
  unfold expected_groups, expected_ids.
  induction items as [|item items IH]; simpl.
  - constructor.
  - apply Forall2_app; [|exact IH].
    unfold field_groups, field_ids.
    induction (enumerate (group_list (fst item) (snd item))) as [|[i g] l IHl];
      simpl; constructor; [reflexivity | exact IHl].
Qed.

(** C3: for a variant record (a dict, so with pairwise distinct keys) whose
    group fields hold dicts, get_patient_groups returns the groups field by
    field in the order of the record's keys and, within a field, in list
    order; the entry made for the group at index i of field k has the id
    k_i, the description given by the group's patients_indications or the
    placeholder when that is absent, and the group itself as data; the ids
    of the entries are pairwise distinct. *)
Theorem get_patient_groups_order_and_ids (items : list (string * value)) :
  dict_keys_unique items ->
  forallb groups_are_dicts items = true ->
  exists groups,
    get_patient_groups (VDict items) = Ok groups
    /\ groups = flat_map
         (fun item =>
            map (fun indexed =>
                   VDict [("id",
                           VStr (fst item ++ "_" ++ str_of_nat (fst indexed)));
                          ("description",
                           match field "patients_indications" (snd indexed) with
                           | Some description => description
                           | None => VStr "Описание отсутствует"
                           end);
                          ("data", snd indexed)])
                (enumerate (group_list (fst item) (snd item))))
         items
    /\ exists ids,
         Forall2 (fun g id => getitem g "id" = Ok (VStr id)) groups ids
         /\ NoDup ids.
Proof.
  intros Hk Hd. exists (expected_groups items). split; [|split].
  - apply get_patient_groups_expected, Hd.
  - unfold expected_groups. apply flat_map_ext. intros item.
    unfold field_groups. apply map_ext. intros [i g]. reflexivity.
  - exists (expected_ids items). split.
    + apply expected_groups_ids.
    + apply expected_ids_NoDup, Hk.
Qed.

Lemma get_patient_groups_skip (key : string) (v : value)
  (acc : list value) :
  holds_no_group v = true ->
  match v with
  | VList l =>
      if prefix "varik" key && (0 <? List.length l)%nat then
        for_each (enumerate l)
          (fun groups '(idx, group) =>
             entry <- group_entry key idx group ;; Ok (groups ++ [entry]))
          acc
      else Ok acc
  | _ => Ok acc
  end = Ok acc.
Proof.
  destruct v; try reflexivity.
  destruct l; [|discriminate]. intros _. simpl. rewrite andb_false_r. reflexivity.
Qed.

Lemma get_patient_groups_skip_key (key : string) (v : value)
  (acc : list value) :
  prefix "varik" key = false ->
  match v with
  | VList l =>
      if prefix "varik" key && (0 <? List.length l)%nat then
        for_each (enumerate l)
          (fun groups '(idx, group) =>
             entry <- group_entry key idx group ;; Ok (groups ++ [entry]))
          acc
      else Ok acc
  | _ => Ok acc
  end = Ok acc.
Proof.
  intros Hp. destruct v; try reflexivity. rewrite Hp. reflexivity.
Qed.

(** C9: a field of the variant record whose value is an empty list, or is
    no list, adds no entry: get_patient_groups returns what it returns for
    the record without that field; and it returns the empty list for a
    record all of whose group fields (the fields whose key starts with
    "varik") hold an empty list or no list, whatever its other fields
    hold. *)
Theorem get_patient_groups_empty_field :
  (forall before after key v,
      holds_no_group v = true ->
      get_patient_groups (VDict (before ++ (key, v) :: after))
      = get_patient_groups (VDict (before ++ after)))
  /\ (forall items,
        forallb without_groups items = true ->
        get_patient_groups (VDict items) = Ok []).
Proof.
  split.
  - intros before after key v Hv. unfold get_patient_groups.
    cbn [dict_items bind]. rewrite !for_each_app.
    destruct (for_each before _ []) as [groups|e]; cbn [bind]; [|reflexivity].
    cbn [for_each]. rewrite (get_patient_groups_skip key v groups Hv).
    reflexivity.
  - intros items Hall. unfold get_patient_groups. cbn [dict_items bind].
    match goal with |- for_each _ ?b _ = _ => set (body := b) end.
    assert (Hbody : forall key v acc,
               without_groups (key, v) = true -> body acc (key, v) = Ok acc).
    { intros key v acc Hv. unfold without_groups in Hv. cbn [fst snd] in Hv.
      apply orb_prop in Hv. destruct Hv as [Hp|Hv].
      - apply get_patient_groups_skip_key.
        destruct (prefix "varik" key); [discriminate | reflexivity].
      - apply get_patient_groups_skip, Hv. }
    clearbody body. generalize (@nil value) as acc.
    induction items as [|[key v] items IH]; intros acc.
    + reflexivity.
    + cbn [forallb] in Hall. apply andb_prop in Hall.
      destruct Hall as [Hv Hall].
      cbn [for_each]. rewrite (Hbody key v acc Hv).
      cbn [bind]. apply IH, Hall.
Qed.

(** ** Substrings *)

Lemma prefix_iff (sub s : string) :
  prefix sub s = true <-> exists after, s = (sub ++ after)%string.
Proof.
  revert s. induction sub as [|c sub IH]; intros s.
  - split; [intros _; exists s; reflexivity | intros _; destruct s; reflexivity].
  - destruct s as [|c' s]; simpl.
    + split; [discriminate | intros (after & E); discriminate].
    + destruct (Ascii.ascii_dec c c') as [->|Hne].
      * rewrite IH. split; intros (after & E); exists after.
        -- rewrite E. reflexivity.
        -- injection E as E. exact E.
      * split; [discriminate|]. intros (after & E). injection E as E _.
        exfalso; apply Hne; symmetry; exact E.
Qed.

Lemma str_in_Substring (sub s : string) :
  str_in sub s = true <-> Substring sub s.
Proof.
  unfold Substring. induction s as [|c s IH].
  - cbn [str_in]. rewrite orb_false_r, prefix_iff. split.
    + intros (after & E). exists "", after. exact E.
    + intros (before & after & E). destruct before as [|b before].
      * exists after. exact E.
      * discriminate.
  - cbn [str_in]. rewrite orb_true_iff, prefix_iff, IH. split.
    + intros [(after & E)|(before & after & E)].
      * exists "", after. exact E.
      * exists (String c before), after. simpl. rewrite E. reflexivity.
    + intros (before & after & E). destruct before as [|b before].
      * left. exists after. exact E.
      * right. injection E as _ E. exists before, after. exact E.
Qed.

Lemma str_in_empty (s : string) : str_in "" s = true.
Proof.
  destruct s; reflexivity.
Qed.

Lemma existsb_Exists {A : Type} (p : A -> bool) (P : A -> Prop) (l : list A) :
  (forall x, In x l -> (p x = true <-> P x)) ->
  (existsb p l = true <-> Exists P l).
Proof.
  intros Hp. rewrite existsb_exists, Exists_exists.
  split; intros (x & Hin & Hx); exists x; (split; [exact Hin|]);
    apply (Hp x Hin); exact Hx.
Qed.

(** ** Matching *)

Section SearchProperties.

Variable lower : string -> string.
Variable repr : value -> string.

Lemma mentionsb_iff (K t : string) : mentionsb lower K t = true <-> mentions lower K t.
Proof.
  apply str_in_Substring.
Qed.

Lemma mentionsb_Exists (K : string) (l : list string) :
  existsb (mentionsb lower K) l = true <-> Exists (mentions lower K) l.
Proof.
  apply existsb_Exists. intros t _. apply mentionsb_iff.
Qed.

Lemma method_mentionsb_iff (K : string) (m : value) :
  method_mentionsb lower repr K m = true <-> method_mentions lower repr K m.
Proof.
  unfold method_mentionsb, method_mentions.
  rewrite !orb_true_iff, !mentionsb_iff, !mentionsb_Exists. tauto.
Qed.

Lemma joint_method_mentionsb_iff (K : string) (m : value) :
  joint_method_mentionsb lower repr K m = true
  <-> joint_method_mentions lower repr K m.
Proof.
  unfold joint_method_mentionsb, joint_method_mentions.
  rewrite !orb_true_iff, !mentionsb_iff, !mentionsb_Exists. tauto.
Qed.

Lemma joint_mentionsb_iff (K : string) (j : value) :
  joint_mentionsb lower repr K j = true <-> joint_mentions lower repr K j.
Proof.
  unfold joint_mentionsb, joint_mentions.
  rewrite !orb_true_iff, mentionsb_iff, mentionsb_Exists.
  rewrite (existsb_Exists _ (joint_method_mentions lower repr K))
    by (intros m _; apply joint_method_mentionsb_iff).
  tauto.
Qed.

Lemma any_field_contains_app (kw : string) (l1 l2 : list value) :
  any_field_contains lower repr kw (l1 ++ l2)
  = any_field_contains lower repr kw l1 || any_field_contains lower repr kw l2.
Proof.
  apply existsb_app.
Qed.

Lemma any_field_contains_texts (K key : string) (obj : value) :
  any_field_contains lower repr (lower K) (list_field key obj)
  = existsb (mentionsb lower K) (texts repr key obj).
Proof.
  unfold any_field_contains, texts.
  induction (list_field key obj) as [|v l IH]; simpl.
  - reflexivity.
  - rewrite IH. reflexivity.
Qed.

Lemma any_field_contains_text (K key : string) (obj : value) :
  any_field_contains lower repr (lower K) [field_or key (VStr "") obj]
  = mentionsb lower K (text repr key obj).
Proof.
  unfold any_field_contains; simpl. apply orb_false_r.
Qed.

Lemma _method_matches_mentions (K : string) (m : value) :
  method_ok m = true ->
  _method_matches lower repr m (lower K)
  = Ok (method_mentionsb lower repr K m).
Proof.
  unfold method_ok. rewrite !andb_true_iff. intros [[[Hd Hi] Hm] Hu].
  unfold _method_matches.
  rewrite !(dict_get_field_or _ _ _ Hd). cbn [bind].
  rewrite (iterate_list_field _ _ Hi), (iterate_list_field _ _ Hm),
    (iterate_list_field _ _ Hu). cbn [bind].
  rewrite !any_field_contains_app, !any_field_contains_texts,
    !any_field_contains_text.
  unfold method_mentionsb. rewrite !orb_assoc. reflexivity.
Qed.

Lemma _joint_matches_loop_mentions (K : string) (methods : list value) :
  forallb joint_method_ok methods = true ->
  _joint_matches_loop lower repr methods (lower K)
  = Ok (existsb (joint_method_mentionsb lower repr K) methods).
Proof.
  induction methods as [|m methods IH]; intros Hok.
  - reflexivity.
  - cbn [forallb] in Hok. apply andb_prop in Hok. destruct Hok as [Hm Hok].
    unfold joint_method_ok in Hm. rewrite !andb_true_iff in Hm.
    destruct Hm as [[[Hd _] Hmed] Hmat].
    cbn [_joint_matches_loop existsb].
    rewrite !(dict_get_field_or _ _ _ Hd). cbn [bind].
    rewrite (iterate_list_field _ _ Hmed), (iterate_list_field _ _ Hmat).
    cbn [bind].
    rewrite !any_field_contains_app, !any_field_contains_texts,
      !any_field_contains_text.
    fold (joint_method_mentionsb lower repr K m).
    rewrite orb_assoc.
    fold (joint_method_mentionsb lower repr K m).
    destruct (joint_method_mentionsb lower repr K m); [reflexivity|].
    apply IH, Hok.
Qed.

Lemma _joint_matches_mentions (K : string) (j : value) :
  joint_ok j = true ->
  _joint_matches lower repr j (lower K) = Ok (joint_mentionsb lower repr K j).
Proof.
  unfold joint_ok. rewrite !andb_true_iff. intros [[[Hd Hi] Hm] Hms].
  unfold _joint_matches.
  rewrite !(dict_get_field_or _ _ _ Hd). cbn [bind].
  rewrite (iterate_list_field _ _ Hi). cbn [bind].
  rewrite any_field_contains_app, any_field_contains_texts,
    any_field_contains_text.
  unfold joint_mentionsb.
  destruct (existsb (mentionsb lower K) (texts repr "indications" j)
            || mentionsb lower K (text repr "recommendations" j)); [reflexivity|].
  rewrite (iterate_list_field _ _ Hm). cbn [bind orb].
  apply _joint_matches_loop_mentions, Hms.
Qed.

End SearchProperties.

(** ** Formatting *)

Lemma join_strs (sep : string) (parts : list value) :
  forallb is_str parts = true -> exists s, join sep parts = Ok s.
Proof.
  induction parts as [|v parts IH]; intros Hs.
  - exists "". reflexivity.
  - cbn [forallb] in Hs. apply andb_prop in Hs. destruct Hs as [Hv Hs].
    destruct v; try discriminate.
    destruct (IH Hs) as (t & Et). cbn [join]. destruct parts as [|v' parts].
    + eexists; reflexivity.
    + rewrite Et. eexists; reflexivity.
Qed.

Lemma _format_method_result_ok (m d v g stage_name : value) (t : string) :
  is_dict m = true -> has_key "name" d = true -> has_key "name" v = true ->
  has_key "description" g = true ->
  exists r,
    _format_method_result m d v g stage_name t = Ok r
    /\ field "type" r = Some (VStr t).
Proof.
  intros Hm Hd Hv Hg. unfold _format_method_result.
  rewrite !(dict_get_field_or _ _ _ Hm).
  rewrite (getitem_has_key _ _ Hd), (getitem_has_key _ _ Hv),
    (getitem_has_key _ _ Hg).
  cbn [bind]. eexists. split; reflexivity.
Qed.

Lemma joint_method_names (methods : list value) :
  forallb joint_method_ok methods = true ->
  comprehension (fun m => dict_get m "name method" (VStr no_name)) methods
  = Ok (map (field_or "name method" (VStr no_name)) methods)
  /\ forallb is_str (map (field_or "name method" (VStr no_name)) methods) = true.
Proof.
  intros Hok. split.
  - apply comprehension_Forall2. intros m Hin.
    rewrite forallb_forall in Hok. specialize (Hok m Hin).
    unfold joint_method_ok in Hok. rewrite !andb_true_iff in Hok.
    apply dict_get_field_or. apply Hok.
  - rewrite forallb_forall. intros n Hin. apply in_map_iff in Hin.
    destruct Hin as (m & <- & Hin).
    rewrite forallb_forall in Hok. specialize (Hok m Hin).
    unfold joint_method_ok in Hok. rewrite !andb_true_iff in Hok.
    destruct Hok as [[[_ Hname] _] _].
    unfold str_or_absent, field_or in *.
    destruct (field "name method" m) as [[]|]; try discriminate; reflexivity.
Qed.

Lemma _format_joint_result_ok (j d v g stage_name : value) :
  joint_ok j = true -> has_key "name" d = true -> has_key "name" v = true ->
  has_key "description" g = true ->
  exists r,
    _format_joint_result j d v g stage_name = Ok r
    /\ field "type" r = Some (VStr "joint").
Proof.
  unfold joint_ok. rewrite !andb_true_iff. intros [[[Hj _] Hm] Hms] Hd Hv Hg.
  unfold _format_joint_result.
  rewrite !(dict_get_field_or _ _ _ Hj). cbn [bind].
  rewrite (iterate_list_field _ _ Hm). cbn [bind].
  destruct (joint_method_names _ Hms) as [-> Hstrs]. cbn [bind].
  rewrite (getitem_has_key _ _ Hd), (getitem_has_key _ _ Hv),
    (getitem_has_key _ _ Hg).
  destruct (map (field_or "name method" (VStr no_name))
              (list_field "methods" j)) as [|n names] eqn:En.
  - cbn [bind]. eexists. split; reflexivity.
  - destruct (join_strs ", " (n :: names) Hstrs) as (s & ->).
    cbn [bind]. eexists. split; reflexivity.
Qed.

(** ** The search, stage by stage *)

Lemma flat_map_nested {A B C : Type} (f : B -> list C) (g : A -> list B)
  (l : list A) :
  flat_map f (flat_map g l) = flat_map (fun x => flat_map f (g x)) l.
Proof.
  induction l as [|x l IH]; simpl.
  - reflexivity.
  - rewrite flat_map_app, IH. reflexivity.
Qed.

Lemma flat_map_of_map {A B C : Type} (f : B -> list C) (g : A -> B)
  (l : list A) :
  flat_map f (map g l) = flat_map (fun x => f (g x)) l.
Proof.
  induction l as [|x l IH]; simpl.
  - reflexivity.
  - rewrite IH. reflexivity.
Qed.

Lemma flat_map_filter {A B : Type} (keep : A -> bool) (f : A -> B)
  (l : list A) :
  flat_map (fun x => if keep x then [f x] else []) l = map f (filter keep l).
Proof.
  induction l as [|x l IH]; simpl.
  - reflexivity.
  - rewrite IH. destruct (keep x); reflexivity.
Qed.

Section SearchResults.

Variable lower : string -> string.
Variable repr : value -> string.

Lemma search_stage_hits (K : string) (d v g stage : value)
  (acc : list value) :
  stage_ok stage = true -> has_key "name" d = true ->
  has_key "name" v = true -> has_key "description" g = true ->
  exists out,
    search_stage lower repr (lower K) d v g acc stage = Ok (acc ++ out)
    /\ Forall2 formats (stage_hits lower repr K (Place d v g stage)) out.
Proof.
  unfold stage_ok. rewrite !andb_true_iff.
  intros [[[[Hs Hname] Halt] Halts] Hjoint] Hd Hv Hg.
  set (p := Place d v g stage).
  unfold search_stage.
  rewrite (getitem_has_key _ _ Hname). cbn [bind].
  rewrite !(dict_get_field_or _ _ _ Hs). cbn [bind].
  rewrite (iterate_list_field _ _ Halt). cbn [bind].
  (* the alternative methods *)
  destruct (for_each_collect formats
              (fun m => if method_mentionsb lower repr K m
                        then [AltHit (p, m)] else [])
              (fun results alt_method =>
                 matched <- _method_matches lower repr alt_method (lower K) ;;
                 if matched then
                   r <- _format_method_result alt_method d v g
                          (field_or "name_stage" VNone stage) "alternative" ;;
                   Ok (results ++ [r])
                 else Ok results)
              (list_field "alternative methods" stage)) with (acc := acc)
    as (out1 & E1 & F1).
  { intros m Hin acc'. rewrite forallb_forall in Halts.
    specialize (Halts m Hin).
    rewrite (_method_matches_mentions lower repr K m Halts). cbn [bind].
    destruct (method_mentionsb lower repr K m).
    - assert (Hm : is_dict m = true).
      { unfold method_ok in Halts. rewrite !andb_true_iff in Halts. apply Halts. }
      destruct (_format_method_result_ok m d v g
                  (field_or "name_stage" VNone stage) "alternative"
                  Hm Hd Hv Hg) as (r & Er & _).
      rewrite Er. cbn [bind]. exists [r]. split; [reflexivity|].
      constructor; [|constructor]. simpl.
      exists (field_or "name_stage" VNone stage). split; [|exact Er].
      apply (getitem_has_key _ _ Hname).
    - exists []. rewrite app_nil_r. split; [reflexivity | constructor]. }
  rewrite E1. cbn [bind].
  rewrite (flat_map_filter (method_mentionsb lower repr K)
             (fun m => AltHit (p, m))) in F1.
  assert (F1' : Forall2 formats
                  (map AltHit
                     (filter (fun o => method_mentionsb lower repr K (snd o))
                        (stage_alternatives p))) out1).
  { unfold stage_alternatives.
    rewrite (filter_map_swap (fun o => method_mentionsb lower repr K (snd o))
               (pair p)), map_map.
    exact F1. }
  clear F1 E1.
  (* the joint block *)
  unfold stage_hits. fold p.
  unfold stage_joint at 1. change (place_stage p) with stage.
  destruct (field "joint methods" stage) as [j|] eqn:Ej.
  - replace (field_or "joint methods" (VDict []) stage) with j
      by (unfold field_or; rewrite Ej; reflexivity).
    cbn [filter snd]. destruct (truthy j) eqn:Ht; cbn [andb].
    + cbn [negb orb] in Hjoint.
      rewrite (_joint_matches_mentions lower repr K j Hjoint). cbn [bind].
      destruct (joint_mentionsb lower repr K j).
      * destruct (_format_joint_result_ok j d v g
                    (field_or "name_stage" VNone stage) Hjoint Hd Hv Hg)
          as (r & Er & _).
        rewrite Er. cbn [bind]. exists (out1 ++ [r]).
        rewrite app_assoc. split; [reflexivity|].
        apply Forall2_app; [exact F1'|].
        constructor; [|constructor]. simpl.
        exists (field_or "name_stage" VNone stage). split; [|exact Er].
        apply (getitem_has_key _ _ Hname).
      * exists out1. split; [reflexivity|].
        cbn [map]. rewrite app_nil_r. exact F1'.
    + exists out1. split; [reflexivity|].
      cbn [map]. rewrite app_nil_r. exact F1'.
  - replace (field_or "joint methods" (VDict []) stage) with (VDict [])
      by (unfold field_or; rewrite Ej; reflexivity).
    cbn [truthy filter map]. exists out1. split; [reflexivity|].
    rewrite app_nil_r. exact F1'.
Qed.

Lemma enumerate_from_In {A : Type} (l : list A) (start i : nat) (x : A) :
  In (i, x) (enumerate_from start l) -> In x l.
Proof.
  revert start. induction l as [|y l IH]; intros start; simpl.
  - intros [].
  - intros [[= _ <-]|Hin]; [left; reflexivity | right; apply (IH _ Hin)].
Qed.

Lemma expected_groups_entries (items : list (string * value)) (e : value) :
  forallb group_field_ok items = true ->
  In e (expected_groups items) ->
  exists key i g, e = entry_of key (i, g) /\ group_ok g = true.
Proof.
  intros Hok Hin. unfold expected_groups in Hin.
  apply in_flat_map in Hin. destruct Hin as (item & Hitem & Hin).
  unfold field_groups in Hin. apply in_map_iff in Hin.
  destruct Hin as ([i g] & <- & Hin).
  exists (fst item), i, g. split; [reflexivity|].
  rewrite forallb_forall in Hok. specialize (Hok item Hitem).
  unfold group_field_ok in Hok. rewrite forallb_forall in Hok.
  apply Hok. apply (enumerate_from_In _ _ _ _ Hin).
Qed.

Lemma group_fields_hold_dicts (items : list (string * value)) :
  forallb group_field_ok items = true ->
  forallb groups_are_dicts items = true.
Proof.
  rewrite !forallb_forall. intros Hok item Hin. specialize (Hok item Hin).
  unfold group_field_ok, groups_are_dicts in *.
  rewrite forallb_forall in *. intros g Hg. specialize (Hok g Hg).
  unfold group_ok in Hok. rewrite !andb_true_iff in Hok. apply Hok.
Qed.

Lemma search_group_hits (K key : string) (i : nat) (d v g : value)
  (acc : list value) :
  group_ok g = true -> has_key "name" d = true -> has_key "name" v = true ->
  exists out,
    search_group lower repr (lower K) d v acc (entry_of key (i, g))
    = Ok (acc ++ out)
    /\ Forall2 formats
         (flat_map (stage_hits lower repr K) (group_places d v (entry_of key (i, g))))
         out.
Proof.
  unfold group_ok. rewrite !andb_true_iff. intros [[Hg Hst] Hstages] Hd Hv.
  set (e := entry_of key (i, g)).
  unfold search_group.
  change (getitem e "data") with (@Ok value g). cbn [bind].
  rewrite (dict_get_field_or _ _ _ Hg). cbn [bind].
  rewrite (iterate_list_field _ _ Hst). cbn [bind].
  unfold group_places.
  change (field_or "data" VNone e) with g.
  rewrite flat_map_of_map.
  apply for_each_collect. intros stage Hin acc'.
  rewrite forallb_forall in Hstages.
  apply search_stage_hits; try assumption.
  - apply Hstages, Hin.
  - reflexivity.
Qed.

Lemma search_variant_hits (K : string) (d v : value) (acc : list value) :
  variant_ok v = true -> has_key "name" d = true ->
  exists out,
    search_variant lower repr (lower K) d acc v = Ok (acc ++ out)
    /\ Forall2 formats (flat_map (stage_hits lower repr K) (variant_places d v)) out.
Proof.
  intros Hv Hd. destruct v as [| | | | | |items]; try discriminate.
  unfold variant_ok in Hv. apply andb_prop in Hv. destruct Hv as [Hname Hok].
  unfold search_variant.
  rewrite (get_patient_groups_expected items (group_fields_hold_dicts _ Hok)).
  cbn [bind]. unfold variant_places, patient_groups_of.
  rewrite flat_map_nested.
  apply for_each_collect. intros e Hin acc'.
  destruct (expected_groups_entries items e Hok Hin) as (key & i & g & -> & Hg).
  apply search_group_hits; assumption.
Qed.

Lemma search_disease_hits (K : string) (d : value) (acc : list value) :
  disease_ok d = true ->
  exists out,
    search_disease lower repr (lower K) acc d = Ok (acc ++ out)
    /\ Forall2 formats (flat_map (stage_hits lower repr K) (disease_places d)) out.
Proof.
  unfold disease_ok. intros Hd. apply andb_prop in Hd.
  destruct Hd as [Hname Hvs].
  unfold search_disease, disease_places, list_field.
  destruct (field "type_variant" d) as [[]|] eqn:Ev; try discriminate.
  rewrite (getitem_field _ _ _ Ev). cbn [bind iterate].
  rewrite flat_map_nested.
  apply for_each_collect. intros v Hin acc'.
  rewrite forallb_forall in Hvs.
  apply search_variant_hits; [apply Hvs, Hin | exact Hname].
Qed.

(** The search returns, in document order, the formatted form of every
    hit of the document, and nothing else. *)
Lemma search_hits (K : string) (knowledge_base : value) :
  document_ok knowledge_base = true ->
  exists results,
    search_methods_by_keyword lower repr knowledge_base K = Ok results
    /\ Forall2 formats (hits lower repr K knowledge_base) results.
Proof.
  unfold document_ok. intros Hkb.
  unfold search_methods_by_keyword, hits, places, list_field.
  destruct (field "disease" knowledge_base) as [[]|] eqn:Ed; try discriminate.
  rewrite (getitem_field _ _ _ Ed). cbn [bind iterate].
  rewrite flat_map_nested.
  destruct (for_each_collect formats
              (fun d => flat_map (stage_hits lower repr K) (disease_places d))
              (search_disease lower repr (lower K)) l) with (acc := @nil value)
    as (out & E & F).
  - intros d Hin acc. rewrite forallb_forall in Hkb.
    apply search_disease_hits, Hkb, Hin.
  - exists out. split; [exact E | exact F].
Qed.

End SearchResults.

(** ** Results by type *)

Ltac step_binds :=
  repeat match goal with
         | H : bind ?c _ = Ok _ |- _ =>
             destruct c; cbn [bind] in H; [|discriminate H]
         end.

Lemma _format_method_result_type (m d v g stage_name r : value) (t : string) :
  _format_method_result m d v g stage_name t = Ok r ->
  field "type" r = Some (VStr t).
Proof.
  unfold _format_method_result. intros E. step_binds.
  injection E as <-. reflexivity.
Qed.

Lemma _format_joint_result_type (j d v g stage_name r : value) :
  _format_joint_result j d v g stage_name = Ok r ->
  field "type" r = Some (VStr "joint").
Proof.
  unfold _format_joint_result. intros E. step_binds.
  injection E as <-. reflexivity.
Qed.

Lemma formats_method_type (o : place * value) (r : value) :
  formats_method o r ->
  has_type "alternative" r = true /\ has_type "joint" r = false.
Proof.
  destruct o as [p m]. intros (stage_name & _ & E).
  apply _format_method_result_type in E. unfold has_type. rewrite E.
  split; reflexivity.
Qed.

Lemma formats_joint_type (o : place * value) (r : value) :
  formats_joint o r ->
  has_type "alternative" r = false /\ has_type "joint" r = true.
Proof.
  destruct o as [p j]. intros (stage_name & _ & E).
  apply _format_joint_result_type in E. unfold has_type. rewrite E.
  split; reflexivity.
Qed.

Lemma formats_by_type (hs : list hit) (rs : list value) :
  Forall2 formats hs rs ->
  Forall2 formats_method (alt_part hs) (alternative_results rs)
  /\ Forall2 formats_joint (joint_part hs) (joint_results rs).
Proof.
  unfold alternative_results, joint_results.
  induction 1 as [|h r hs rs Hf _ [IHa IHj]]; cbn [alt_part joint_part flat_map filter].
  - split; constructor.
  - destruct h as [o|o]; cbn [formats] in Hf.
    + destruct (formats_method_type o r Hf) as [-> ->]. split.
      * constructor; assumption.
      * exact IHj.
    + destruct (formats_joint_type o r Hf) as [-> ->]. split.
      * exact IHa.
      * constructor; assumption.
Qed.

Lemma parts_length (hs : list hit) :
  List.length hs = List.length (alt_part hs) + List.length (joint_part hs).
Proof.
  induction hs as [|[o|o] hs IH]; simpl; lia.
Qed.

Lemma alt_part_app (hs hs' : list hit) :
  alt_part (hs ++ hs') = alt_part hs ++ alt_part hs'.
Proof.
  apply flat_map_app.
Qed.

Lemma joint_part_app (hs hs' : list hit) :
  joint_part (hs ++ hs') = joint_part hs ++ joint_part hs'.
Proof.
  apply flat_map_app.
Qed.

Lemma alt_part_alts (l : list (place * value)) : alt_part (map AltHit l) = l.
Proof.
  induction l as [|o l IH]; simpl; [|rewrite IH]; reflexivity.
Qed.

Lemma alt_part_joints (l : list (place * value)) : alt_part (map JointHit l) = [].
Proof.
  induction l as [|o l IH]; simpl; [reflexivity | exact IH].
Qed.

Lemma joint_part_alts (l : list (place * value)) : joint_part (map AltHit l) = [].
Proof.
  induction l as [|o l IH]; simpl; [reflexivity | exact IH].
Qed.

Lemma joint_part_joints (l : list (place * value)) :
  joint_part (map JointHit l) = l.
Proof.
  induction l as [|o l IH]; simpl; [|rewrite IH]; reflexivity.
Qed.

Lemma filter_flat_map {A B : Type} (keep : B -> bool) (f : A -> list B)
  (l : list A) :
  filter keep (flat_map f l) = flat_map (fun x => filter keep (f x)) l.
Proof.
  induction l as [|x l IH]; simpl.
  - reflexivity.
  - rewrite filter_app, IH. reflexivity.
Qed.

Lemma filter_both {A : Type} (p q : A -> bool) (l : list A) :
  filter (fun x => p x && q x) l = filter q (filter p l).
Proof.
  induction l as [|x l IH]; simpl.
  - reflexivity.
  - destruct (p x); simpl; [destruct (q x)|]; rewrite IH; reflexivity.
Qed.

Lemma filter_all {A : Type} (p : A -> bool) (l : list A) :
  (forall x, In x l -> p x = true) -> filter p l = l.
Proof.
  induction l as [|x l IH]; simpl; intros Hp.
  - reflexivity.
  - rewrite (Hp x (or_introl eq_refl)), IH; [reflexivity|].
    intros y Hy. apply Hp. right; exact Hy.
Qed.

Section SearchClaims.

Variable lower : string -> string.
Variable repr : value -> string.

Lemma alt_part_hits (K : string) (knowledge_base : value) :
  alt_part (hits lower repr K knowledge_base)
  = filter (fun o => method_mentionsb lower repr K (snd o))
           (alternative_methods knowledge_base).
Proof.
  unfold hits, alternative_methods, alt_part.
  rewrite flat_map_nested, filter_flat_map.
  apply flat_map_ext. intros p. unfold stage_hits.
  fold (alt_part (map AltHit
                   (filter (fun o => method_mentionsb lower repr K (snd o))
                      (stage_alternatives p))
                  ++ map JointHit
                       (filter (fun o => truthy (snd o)
                                         && joint_mentionsb lower repr K (snd o))
                          (stage_joint p)))).
  rewrite alt_part_app, alt_part_alts, alt_part_joints, app_nil_r.
  reflexivity.
Qed.

Lemma joint_part_hits (K : string) (knowledge_base : value) :
  joint_part (hits lower repr K knowledge_base)
  = filter (fun o => joint_mentionsb lower repr K (snd o))
           (nonempty_joint_blocks knowledge_base).
Proof.
  unfold hits, nonempty_joint_blocks, joint_blocks, joint_part.
  rewrite flat_map_nested, !filter_flat_map.
  apply flat_map_ext. intros p. unfold stage_hits.
  fold (joint_part (map AltHit
                   (filter (fun o => method_mentionsb lower repr K (snd o))
                      (stage_alternatives p))
                  ++ map JointHit
                       (filter (fun o => truthy (snd o)
                                         && joint_mentionsb lower repr K (snd o))
                          (stage_joint p)))).
  rewrite joint_part_app, joint_part_alts, joint_part_joints.
  apply (filter_both (fun o => truthy (snd o))).
Qed.



End SearchClaims.

(** ** Missing fields *)

Lemma lookup_app (key : string) (d d' : list (string * value)) :
  lookup key (d ++ d')
  = match lookup key d with
    | Some v => Some v
    | None => lookup key d'
    end.
Proof.
  induction d as [|[k v] d IH]; simpl.
  - reflexivity.
  - destruct (String.eqb k key); [reflexivity | exact IH].
Qed.

Lemma dict_get_with_default (key key' : string) (default default' obj : value) :
  (key' = key -> default' = default) ->
  dict_get (with_default key default obj) key' default'
  = dict_get obj key' default'.
Proof.
  intros Hsame. destruct obj; try reflexivity. simpl.
  destruct (lookup key d) eqn:E; [reflexivity|]. simpl.
  rewrite lookup_app. destruct (lookup key' d); [reflexivity|]. simpl.
  destruct (String.eqb_spec key key') as [<-|]; [|reflexivity].
  rewrite (Hsame eq_refl). reflexivity.
Qed.

Lemma getitem_with_default (key key' : string) (default obj : value) :
  key' <> key ->
  getitem (with_default key default obj) key' = getitem obj key'.
Proof.
  intros Hne. destruct obj; try reflexivity. simpl.
  destruct (lookup key d) eqn:E; [reflexivity|]. simpl.
  rewrite lookup_app. destruct (lookup key' d); [reflexivity|]. simpl.
  destruct (String.eqb_spec key key') as [<-|]; [|reflexivity].
  exfalso; apply Hne; reflexivity.
Qed.

Ltac each_default H :=
  simpl in H;
  repeat (destruct H as [H|H]; [injection H as <- <-|]);
  try contradiction.

Ltac same_default :=
  let E := fresh in intros E; try discriminate E; reflexivity.

Lemma for_each_ext {A S : Type} (body body' : S -> A -> result S)
  (xs : list A) :
  (forall s x, body s x = body' s x) ->
  forall s, for_each xs body s = for_each xs body' s.
Proof.
  intros Hb. induction xs as [|x xs IH]; intros s; simpl.
  - reflexivity.
  - rewrite Hb. destruct (body' s x); simpl; [apply IH | reflexivity].
Qed.

Section MissingFields.

Variable lower : string -> string.
Variable repr : value -> string.

Lemma _method_matches_default (key : string) (default m : value)
  (kw : string) :
  In (key, default) method_defaults ->
  _method_matches lower repr (with_default key default m) kw
  = _method_matches lower repr m kw.
Proof.
  intros Hin. unfold _method_matches.
  each_default Hin; rewrite !dict_get_with_default by same_default;
    reflexivity.
Qed.

Lemma _format_method_result_default (key : string)
  (default m d v g stage_name : value) (t : string) :
  In (key, default) method_defaults ->
  _format_method_result (with_default key default m) d v g stage_name t
  = _format_method_result m d v g stage_name t.
Proof.
  intros Hin. unfold _format_method_result.
  each_default Hin; rewrite !dict_get_with_default by same_default;
    reflexivity.
Qed.

Lemma _joint_matches_default (key : string) (default j : value)
  (kw : string) :
  In (key, default) joint_defaults ->
  _joint_matches lower repr (with_default key default j) kw
  = _joint_matches lower repr j kw.
Proof.
  intros Hin. unfold _joint_matches.
  each_default Hin; rewrite !dict_get_with_default by same_default;
    reflexivity.
Qed.

Lemma _format_joint_result_default (key : string)
  (default j d v g stage_name : value) :
  In (key, default) joint_defaults ->
  _format_joint_result (with_default key default j) d v g stage_name
  = _format_joint_result j d v g stage_name.
Proof.
  intros Hin. unfold _format_joint_result.
  each_default Hin; rewrite !dict_get_with_default by same_default;
    reflexivity.
Qed.

Lemma search_stage_default (key : string) (default d v g stage : value)
  (kw : string) (acc : list value) :
  In (key, default) stage_defaults ->
  search_stage lower repr kw d v g acc (with_default key default stage)
  = search_stage lower repr kw d v g acc stage.
Proof.
  intros Hin. unfold search_stage.
  each_default Hin;
    rewrite !dict_get_with_default by same_default;
    rewrite getitem_with_default by discriminate;
    reflexivity.
Qed.

Lemma search_stage_group (d v g g' stage : value) (kw : string)
  (acc : list value) :
  getitem g "description" = getitem g' "description" ->
  search_stage lower repr kw d v g acc stage
  = search_stage lower repr kw d v g' acc stage.
Proof.
  intros Hg. unfold search_stage, _format_method_result, _format_joint_result.
  rewrite Hg. reflexivity.
Qed.

Lemma search_group_default (key : string) (i : nat) (d v g : value)
  (kw : string) (acc : list value) :
  search_group lower repr kw d v acc
    (entry_of key (i, with_default "stage" (VList []) g))
  = search_group lower repr kw d v acc (entry_of key (i, g)).
Proof.
  unfold search_group.
  change (getitem (entry_of key (i, with_default "stage" (VList []) g)) "data")
    with (@Ok value (with_default "stage" (VList []) g)).
  change (getitem (entry_of key (i, g)) "data") with (@Ok value g).
  cbn [bind]. rewrite dict_get_with_default by same_default.
  destruct (dict_get g "stage" (VList [])) as [stages|e]; [|reflexivity].
  cbn [bind]. destruct (iterate stages) as [l|e]; [|reflexivity].
  cbn [bind]. revert acc. apply for_each_ext. intros acc stage.
  apply search_stage_group.
  assert (E : dict_get (with_default "stage" (VList []) g)
                "patients_indications" (VStr no_description)
              = dict_get g "patients_indications" (VStr no_description))
    by (apply dict_get_with_default; same_default).
  destruct g; try reflexivity.
  unfold entry_of, getitem, field_or, field. simpl lookup.
  simpl in E. unfold with_default in *.
  destruct (lookup "stage" d0); [reflexivity|].
  simpl in E. rewrite lookup_app in *. simpl.
  destruct (lookup "patients_indications" d0); reflexivity.
Qed.

(** C8: the search of a well-shaped document returns a result list and
    raises nothing, whichever of the optional fields (indications,
    medicines, used material, pages, recommendations, persuasiveness,
    evidence, the joint block, the alternative methods, the stage list)
    are absent; and matching, formatting and the loops over stages and
    groups give for a record with such a field absent what they give for
    the record with the field set to the empty list, string or block. *)
Theorem search_tolerates_missing_fields :
  (forall knowledge_base K,
      document_ok knowledge_base = true ->
      exists results,
        search_methods_by_keyword lower repr knowledge_base K = Ok results)
  /\ (forall key default m kw d v g stage_name t,
        In (key, default) method_defaults ->
        _method_matches lower repr (with_default key default m) kw
        = _method_matches lower repr m kw
        /\ _format_method_result (with_default key default m) d v g
             stage_name t
           = _format_method_result m d v g stage_name t)
  /\ (forall key default j kw d v g stage_name,
        In (key, default) joint_defaults ->
        _joint_matches lower repr (with_default key default j) kw
        = _joint_matches lower repr j kw
        /\ _format_joint_result (with_default key default j) d v g stage_name
           = _format_joint_result j d v g stage_name)
  /\ (forall key default stage kw d v g acc,
        In (key, default) stage_defaults ->
        search_stage lower repr kw d v g acc (with_default key default stage)
        = search_stage lower repr kw d v g acc stage)
  /\ (forall key i group kw d v acc,
        search_group lower repr kw d v acc
          (entry_of key (i, with_default "stage" (VList []) group))
        = search_group lower repr kw d v acc (entry_of key (i, group))).
Proof.
  split; [|split; [|split; [|split]]].
  - intros kb K Hok.
    destruct (search_hits lower repr K kb Hok) as (results & E & _).
    exists results. exact E.
  - intros key default m kw d v g stage_name t Hin. split.
    + apply _method_matches_default, Hin.
    + apply _format_method_result_default, Hin.
  - intros key default j kw d v g stage_name Hin. split.
    + apply _joint_matches_default, Hin.
    + apply _format_joint_result_default, Hin.
  - intros key default stage kw d v g acc Hin.
    apply search_stage_default, Hin.
  - intros key i group kw d v acc. apply search_group_default.
Qed.

(** C10: when the keyword is the empty string (whose lowercase form is
    the empty string), the search of a well-shaped document returns one
    result for every alternative method of the document and one for every
    non-empty joint block, and nothing else. *)
Theorem search_empty_keyword (knowledge_base : value) :
  document_ok knowledge_base = true ->
  lower "" = "" ->
  exists results,
    search_methods_by_keyword lower repr knowledge_base "" = Ok results
    /\ Forall2 formats_method (alternative_methods knowledge_base)
         (alternative_results results)
    /\ Forall2 formats_joint (nonempty_joint_blocks knowledge_base)
         (joint_results results)
    /\ List.length results
       = List.length (alternative_methods knowledge_base)
         + List.length (nonempty_joint_blocks knowledge_base).
Proof.
  intros Hok Hlow.
  destruct (search_hits lower repr "" knowledge_base Hok) as (results & E & F).
  assert (Hm : forall t, mentionsb lower "" t = true).
  { intros t. unfold mentionsb. rewrite Hlow. apply str_in_empty. }
  assert (Ea : alt_part (hits lower repr "" knowledge_base)
               = alternative_methods knowledge_base).
  { rewrite alt_part_hits. apply filter_all. intros o _.
    unfold method_mentionsb. rewrite Hm. reflexivity. }
  assert (Ej : joint_part (hits lower repr "" knowledge_base)
               = nonempty_joint_blocks knowledge_base).
  { rewrite joint_part_hits. apply filter_all. intros o _.
    unfold joint_mentionsb. rewrite Hm. apply orb_true_iff. left.
    apply orb_true_r. }
  exists results. split; [exact E|].
  destruct (formats_by_type _ _ F) as [Fa Fj]. rewrite Ea in Fa. rewrite Ej in Fj.
  split; [exact Fa|]. split; [exact Fj|].
  rewrite <- (Forall2_length F), parts_length, Ea, Ej. reflexivity.
Qed.

End MissingFields.

(** ** The scenario of the specification *)

(** C4 as stated fails: with the group field named "group1" the variant has
    no patient group and the search for "ibuprofen" finds nothing. *)
Lemma scenario_group1_counterexample :
  get_diseases (scenario_document "group1") = Ok [VStr "Closed fracture"]
  /\ get_patient_groups (scenario_variant "group1") = Ok []
  /\ search_methods_by_keyword ascii_lower no_repr
       (scenario_document "group1") "ibuprofen" = Ok [].
Proof.
  repeat split; reflexivity.
Qed.

(** C4, amended: for the document of the scenario with its group field
    named "varik1", get_diseases returns ["Closed fracture"],
    get_patient_groups of the variant returns exactly one entry, of id
    "varik1_0", and the search for "ibuprofen" returns exactly one result,
    whose method is "Cast immobilization" ([lower] being [str.lower], which
    on ASCII text is [ascii_lower]). *)
Theorem scenario_varik1 (lower : string -> string) (repr : value -> string) :
  (forall s, ascii_only s = true -> lower s = ascii_lower s) ->
  get_diseases (scenario_document "varik1") = Ok [VStr "Closed fracture"]
  /\ (exists entry,
        get_patient_groups (scenario_variant "varik1") = Ok [entry]
        /\ getitem entry "id" = Ok (VStr "varik1_0"))
  /\ (exists r,
        search_methods_by_keyword lower repr (scenario_document "varik1")
          "ibuprofen" = Ok [r]
        /\ getitem r "method" = Ok (VStr "Cast immobilization")).
Proof.
  intros Hlower. split; [reflexivity|]. split.
  - eexists. split; reflexivity.
  - eexists. split.
    + unfold search_methods_by_keyword.
      rewrite (Hlower "ibuprofen" eq_refl).
      cbn -[ascii_lower str_in].
      rewrite (Hlower "Cast immobilization" eq_refl),
        (Hlower "Ibuprofen" eq_refl), (Hlower "" eq_refl).
      vm_compute. reflexivity.
    + reflexivity.
Qed.

Lemma scenario_varik1_witness :
  (forall s, ascii_only s = true -> ascii_lower s = ascii_lower s)
  /\ get_diseases (scenario_document "varik1") = Ok [VStr "Closed fracture"]
  /\ (exists entry,
        get_patient_groups (scenario_variant "varik1") = Ok [entry]
        /\ getitem entry "id" = Ok (VStr "varik1_0"))
  /\ (exists r,
        search_methods_by_keyword ascii_lower no_repr
          (scenario_document "varik1") "ibuprofen" = Ok [r]
        /\ getitem r "method" = Ok (VStr "Cast immobilization")).
Proof.
  split; [reflexivity|].
  apply (scenario_varik1 ascii_lower no_repr). reflexivity.
Defined.

(** ** The empty joint block *)


(** A keyword that occurs only in the indications of a method of the joint
    block finds nothing, one that occurs in a medicine of such a method
    finds the block. *)
Example joint_method_indications_ignored :
  search_methods_by_keyword ascii_lower no_repr sample_document "intolerance"
  = Ok []
  /\ exists r,
       search_methods_by_keyword ascii_lower no_repr sample_document "CEFAZ"
       = Ok [r]
       /\ getitem r "type" = Ok (VStr "joint")
       /\ getitem r "method"
          = Ok (VStr "Совместные методы: Debridement, Без названия").
Proof.
  split; [reflexivity|]. eexists. repeat split; reflexivity.
Qed.

Example sample_patient_groups :
  exists a b c,
    get_patient_groups (VDict sample_items) = Ok [a; b; c]
    /\ getitem a "id" = Ok (VStr "varik1_0")
    /\ getitem b "id" = Ok (VStr "varik1_1")
    /\ getitem c "id" = Ok (VStr "varik3_0")
    /\ getitem a "description" = Ok (VStr "Описание отсутствует")
    /\ getitem c "description" = Ok (VStr "Children").
Proof.
  do 3 eexists. repeat split; reflexivity.
Qed.

(** ** Instances *)



Lemma sample_items_keys_unique : dict_keys_unique sample_items.
Proof.
  unfold dict_keys_unique, sample_items; simpl.
  repeat constructor; simpl; intuition discriminate.
Defined.

Lemma get_patient_groups_order_and_ids_witness :
  dict_keys_unique sample_items
  /\ forallb groups_are_dicts sample_items = true
  /\ exists groups ids,
       get_patient_groups (VDict sample_items) = Ok groups
       /\ Forall2 (fun g id => getitem g "id" = Ok (VStr id)) groups ids
       /\ NoDup ids.
Proof.
  split; [exact sample_items_keys_unique|]. split; [reflexivity|].
  destruct (get_patient_groups_order_and_ids sample_items
              sample_items_keys_unique eq_refl)
    as (groups & E & _ & ids & F & N).
  exists groups, ids. repeat split; assumption.
Defined.

Lemma get_diseases_source_order_witness :
  field "disease" sample_document = Some (VList sample_diseases)
  /\ forallb (has_key "name") sample_diseases = true
  /\ exists names,
       get_diseases sample_document = Ok names
       /\ Forall2 (fun d n => field "name" d = Some n) sample_diseases names.
Proof.
  split; [reflexivity|]. split; [reflexivity|].
  destruct (get_diseases_source_order sample_document sample_diseases
              eq_refl eq_refl) as (names & E & F & _).
  exists names. split; assumption.
Defined.

Lemma get_disease_variants_lookup_witness :
  field "disease" sample_document = Some (VList sample_diseases)
  /\ forallb (has_key "name") sample_diseases = true
  /\ get_disease_variants sample_document "Unknown" = Ok (VList [])
  /\ get_disease_variants sample_document "Closed fracture" = Ok (VList []).
Proof.
  split; [reflexivity|]. split; [reflexivity|].
  destruct (get_disease_variants_lookup sample_document sample_diseases
              "Unknown" eq_refl eq_refl) as [Hnone _].
  destruct (get_disease_variants_lookup sample_document sample_diseases
              "Closed fracture" eq_refl eq_refl) as [_ Hfound].
  split.
  - apply Hnone. simpl. intros d [<-|[<-|[]]]; discriminate.
  - apply (Hfound
             [VDict [("name", VStr "Open fracture");
                     ("type_variant", VList [VDict sample_items])]]
             (VDict [("name", VStr "Closed fracture");
                     ("type_variant", VList [])])
             [] (VList [])); try reflexivity.
    simpl. intros d [<-|[]]; discriminate.
Defined.

Lemma get_patient_groups_empty_field_witness :
  holds_no_group (VList []) = true
  /\ get_patient_groups
       (VDict ([("name", VStr "Type B")] ++ ("varik2", VList []) :: []))
     = get_patient_groups (VDict ([("name", VStr "Type B")] ++ []))
  /\ forallb without_groups variant_without_groups = true
  /\ get_patient_groups (VDict variant_without_groups) = Ok [].
Proof.
  split; [reflexivity|]. split; [|split; [reflexivity|]].
  - apply (proj1 get_patient_groups_empty_field). reflexivity.
  - apply (proj2 get_patient_groups_empty_field). reflexivity.
Defined.

Lemma search_tolerates_missing_fields_witness :
  document_ok sample_document = true
  /\ exists results,
       search_methods_by_keyword ascii_lower no_repr sample_document "plate"
       = Ok results.
Proof.
  split; [reflexivity|].
  apply (proj1 (search_tolerates_missing_fields ascii_lower no_repr)).
  reflexivity.
Defined.

Lemma search_empty_keyword_witness :
  document_ok sample_document = true
  /\ ascii_lower "" = ""
  /\ exists results,
       search_methods_by_keyword ascii_lower no_repr sample_document ""
       = Ok results
       /\ List.length results = 3.
Proof.
  split; [reflexivity|]. split; [reflexivity|].
  destruct (search_empty_keyword ascii_lower no_repr sample_document
              eq_refl eq_refl) as (results & E & _ & _ & L).
  exists results. split; [exact E | exact L].
Defined.

(** * Further properties *)

(** ** Patient groups: fields passed over, errors, the data carried *)

(** X1: a field of the variant record whose key does not start with
    "varik" is passed over whatever it holds: get_patient_groups returns
    what it returns for the record without that field. *)
Theorem get_patient_groups_other_key (before after : list (string * value))
  (key : string) (v : value) :
  prefix "varik" key = false ->
  get_patient_groups (VDict (before ++ (key, v) :: after))
  = get_patient_groups (VDict (before ++ after)).
Proof.
  intros Hp. unfold get_patient_groups.
  cbn [dict_items bind]. rewrite !for_each_app.
  destruct (for_each before _ []) as [groups|e]; cbn [bind]; [|reflexivity].
  cbn [for_each]. rewrite (get_patient_groups_skip_key key v groups Hp).
  reflexivity.
Qed.

Lemma get_patient_groups_other_key_witness :
  prefix "varik" "group1" = false
  /\ get_patient_groups
       (VDict ([("name", VStr "Type A")]
               ++ ("group1", VList [scenario_group])
                  :: [("varik2", VList [scenario_group])]))
     = get_patient_groups
         (VDict ([("name", VStr "Type A")]
                 ++ [("varik2", VList [scenario_group])])).
Proof.
  split; [reflexivity|].
  apply (get_patient_groups_other_key [("name", VStr "Type A")]
           [("varik2", VList [scenario_group])] "group1"
           (VList [scenario_group])).
  reflexivity.
Defined.

Lemma enumerate_entries_or_raise (key : string) (l : list value)
  (start : nat) (acc : list value) :
  for_each (enumerate_from start l)
    (fun groups '(idx, group) =>
       entry <- group_entry key idx group ;; Ok (groups ++ [entry]))
    acc
  = if forallb is_dict l
    then Ok (acc ++ map (entry_of key) (enumerate_from start l))
    else Raise AttributeError.
Proof.
  revert start acc. induction l as [|g l IH]; intros start acc.
  - simpl. rewrite app_nil_r. reflexivity.
  - cbn [enumerate_from for_each forallb].
    destruct (is_dict g) eqn:Hg.
    + rewrite (group_entry_of _ _ _ Hg). cbn [bind andb].
      rewrite IH. destruct (forallb is_dict l); [|reflexivity].
      cbn [map]. rewrite <- app_assoc. reflexivity.
    + destruct g; try discriminate; reflexivity.
Qed.

Lemma get_patient_groups_loop_or_raise (items : list (string * value))
  (acc : list value) :
  for_each items
    (fun groups '(key, value) =>
       match value with
       | VList l =>
           if prefix "varik" key && (0 <? List.length l)%nat then
             for_each (enumerate l)
               (fun groups '(idx, group) =>
                  entry <- group_entry key idx group ;;
                  Ok (groups ++ [entry]))
               groups
           else Ok groups
       | _ => Ok groups
       end)
    acc
  = if forallb groups_are_dicts items
    then Ok (acc ++ expected_groups items)
    else Raise AttributeError.
Proof.
  revert acc. induction items as [|[key v] items IH]; intros acc.
  - simpl. rewrite app_nil_r. reflexivity.
  - cbn [for_each forallb].
    assert (Hitem :
              match v with
              | VList l =>
                  if prefix "varik" key && (0 <? List.length l)%nat then
                    for_each (enumerate l)
                      (fun groups '(idx, group) =>
                         entry <- group_entry key idx group ;;
                         Ok (groups ++ [entry]))
                      acc
                  else Ok acc
              | _ => Ok acc
              end
              = if groups_are_dicts (key, v)
                then Ok (acc ++ field_groups (key, v))
                else Raise AttributeError).
    { unfold groups_are_dicts, field_groups, group_list; cbn [fst snd].
      destruct v; try (cbn; rewrite app_nil_r; reflexivity).
      destruct (prefix "varik" key); cbn [andb].
      - destruct l as [|g l].
        + cbn. rewrite app_nil_r. reflexivity.
        + change (0 <? List.length (g :: l))%nat with true. cbv iota.
          apply enumerate_entries_or_raise.
      - cbn. rewrite app_nil_r. reflexivity. }
    rewrite Hitem. destruct (groups_are_dicts (key, v)); [|reflexivity].
    cbn [bind andb]. rewrite IH.
    destruct (forallb groups_are_dicts items); [|reflexivity].
    unfold expected_groups. cbn [flat_map]. rewrite app_assoc. reflexivity.
Qed.

(** X2: get_patient_groups raises exactly when the variant is no dict or
    one of its group fields holds something that is no dict, and what it
    raises then is AttributeError, never anything else. *)
Theorem get_patient_groups_raises (variant : value) :
  (is_dict variant = false -> get_patient_groups variant = Raise AttributeError)
  /\ (forall items,
        variant = VDict items ->
        (forallb groups_are_dicts items = false ->
         get_patient_groups variant = Raise AttributeError)
        /\ (forallb groups_are_dicts items = true ->
            exists groups, get_patient_groups variant = Ok groups))
  /\ (forall e, get_patient_groups variant = Raise e -> e = AttributeError).
Proof.
  split; [|split].
  - destruct variant; try discriminate; reflexivity.
  - intros items ->. unfold get_patient_groups. cbn [dict_items bind].
    rewrite get_patient_groups_loop_or_raise. split; intros ->.
    + reflexivity.
    + eexists; reflexivity.
  - intros e. destruct variant; try (intros [= <-]; reflexivity).
    unfold get_patient_groups. cbn [dict_items bind].
    rewrite get_patient_groups_loop_or_raise.
    destruct (forallb groups_are_dicts d); [discriminate|].
    intros [= <-]. reflexivity.
Qed.

Lemma get_patient_groups_raises_witness :
  get_patient_groups (VDict [("varik1", VList [VDict []; VStr "adults"])])
  = Raise AttributeError.
Proof.
  apply (proj1 (proj1 (proj2 (get_patient_groups_raises
                                (VDict [("varik1",
                                         VList [VDict []; VStr "adults"])])))
                 _ eq_refl)).
  reflexivity.
Defined.

Lemma expected_groups_data (items : list (string * value)) :
  map (field_or "data" VNone) (expected_groups items)
  = flat_map (fun item => group_list (fst item) (snd item)) items.
Proof.
  unfold expected_groups. induction items as [|item items IH]; simpl.
  - reflexivity.
  - rewrite map_app, IH. f_equal.
    unfold field_groups, enumerate. generalize 0.
    induction (group_list (fst item) (snd item)) as [|g l IHl]; intros n; simpl.
    + reflexivity.
    + rewrite IHl. reflexivity.
Qed.

(** X3: when the group fields hold dicts, the "data" of the entries
    get_patient_groups returns are exactly the groups of the group fields,
    each once and in order, so no group is lost or duplicated; every entry
    has the keys "id", "description" and "data". *)
Theorem get_patient_groups_data (items : list (string * value)) :
  forallb groups_are_dicts items = true ->
  exists groups,
    get_patient_groups (VDict items) = Ok groups
    /\ map (field_or "data" VNone) groups
       = flat_map (fun item => group_list (fst item) (snd item)) items
    /\ Forall (fun e => has_key "id" e = true
                        /\ has_key "description" e = true
                        /\ has_key "data" e = true) groups.
Proof.
  intros Hd. exists (expected_groups items). split; [|split].
  - apply get_patient_groups_expected, Hd.
  - apply expected_groups_data.
  - apply Forall_forall. intros e Hin. unfold expected_groups in Hin.
    apply in_flat_map in Hin. destruct Hin as (item & _ & Hin).
    unfold field_groups in Hin. apply in_map_iff in Hin.
    destruct Hin as ([i g] & <- & _). repeat split.
Qed.

Lemma get_patient_groups_data_witness :
  forallb groups_are_dicts sample_items = true
  /\ exists groups,
       get_patient_groups (VDict sample_items) = Ok groups
       /\ map (field_or "data" VNone) groups
          = [VDict [("stage", VList [sample_stage])]; VDict [];
             VDict [("patients_indications", VStr "Children")]].
Proof.
  split; [reflexivity|].
  destruct (get_patient_groups_data sample_items eq_refl)
    as (groups & E & D & _).
  exists groups. split; [exact E | exact D].
Defined.

(** X4: the entries of get_patient_groups feed get_group_plan: for the
    "data" g of every entry the plan is made without error and its stages
    are g's 'stage' (the empty list when absent).  When g has
    patients_indications, the entry's description and the plan's
    group_description both are it; when g has none, the entry says
    "Описание отсутствует" while the plan's group_description is the empty
    string. *)
Theorem patient_group_plan (items : list (string * value))
  (variant_name : string) :
  forallb groups_are_dicts items = true ->
  exists groups,
    get_patient_groups (VDict items) = Ok groups
    /\ Forall
         (fun e =>
            exists g plan,
              getitem e "data" = Ok g
              /\ get_group_plan variant_name g = Ok plan
              /\ getitem plan "stages" = Ok (field_or "stage" (VList []) g)
              /\ match field "patients_indications" g with
                 | Some d =>
                     getitem e "description" = Ok d
                     /\ getitem plan "group_description" = Ok d
                 | None =>
                     getitem e "description" = Ok (VStr no_description)
                     /\ getitem plan "group_description" = Ok (VStr "")
                 end)
         groups.
Proof.
  intros Hd. exists (expected_groups items). split.
  - apply get_patient_groups_expected, Hd.
  - apply Forall_forall. intros e Hin. unfold expected_groups in Hin.
    apply in_flat_map in Hin. destruct Hin as (item & Hitem & Hin).
    unfold field_groups in Hin. apply in_map_iff in Hin.
    destruct Hin as ([i g] & <- & Hin).
    apply enumerate_from_In in Hin.
    rewrite forallb_forall in Hd. specialize (Hd item Hitem).
    unfold groups_are_dicts in Hd. rewrite forallb_forall in Hd.
    specialize (Hd g Hin). destruct g; try discriminate.
    exists (VDict d). unfold get_group_plan, entry_of, field_or, field, dict_get.
    destruct (lookup "patients_indications" d);
      destruct (lookup "stage" d); cbn [bind];
      eexists; repeat split; reflexivity.
Qed.

Lemma patient_group_plan_witness :
  forallb groups_are_dicts sample_items = true
  /\ exists groups,
       get_patient_groups (VDict sample_items) = Ok groups
       /\ List.length groups = 3.
Proof.
  split; [reflexivity|].
  destruct (patient_group_plan sample_items "Type B" eq_refl)
    as (groups & E & _).
  exists groups. split; [exact E|].
  assert (E' : get_patient_groups (VDict sample_items)
               = Ok (expected_groups sample_items)) by reflexivity.
  rewrite E in E'. injection E' as ->. reflexivity.
Defined.

(** ** Diseases: the first match wins, a nameless disease breaks the lookup *)

(** X5: get_disease_variants stops at the first disease of the name asked
    for: whatever follows it in the document (another disease of the same
    name, a record without name, something that is no record) plays no
    part.  It returns that disease's 'type_variant', and raises
    KeyError('type_variant') when the disease has none. *)
Theorem get_disease_variants_first_match (knowledge_base : value)
  (before after : list value) (d : value) (name : string) :
  field "disease" knowledge_base = Some (VList (before ++ d :: after)) ->
  forallb (has_key "name") before = true ->
  (forall d', In d' before -> field "name" d' <> Some (VStr name)) ->
  field "name" d = Some (VStr name) ->
  get_disease_variants knowledge_base name
  = match field "type_variant" d with
    | Some variants => Ok variants
    | None => Raise (KeyError "type_variant")
    end.
Proof.
  intros Hkb Hn Hno Hd. unfold get_disease_variants.
  rewrite (getitem_field _ _ _ Hkb). cbn [bind iterate].
  destruct (field "type_variant" d) as [variants|] eqn:Hv.
  - apply get_disease_variants_loop_found; assumption.
  - clear Hkb. induction before as [|b bs IH].
    + cbn [Datatypes.app get_disease_variants_loop].
      rewrite (getitem_field _ _ _ Hd). cbn [bind eq_str].
      rewrite String.eqb_refl.
      destruct d; try discriminate. unfold getitem. simpl in Hv.
      rewrite Hv. reflexivity.
    + cbn [forallb] in Hn. apply andb_prop in Hn. destruct Hn as [Hb Hn].
      cbn [Datatypes.app get_disease_variants_loop].
      rewrite (getitem_has_key _ _ Hb). cbn [bind].
      assert (E : eq_str (field_or "name" VNone b) name = false).
      { specialize (Hno b (or_introl eq_refl)).
        unfold has_key, field_or in *.
        destruct (field "name" b) as [v|]; [|discriminate].
        destruct v; simpl; try reflexivity.
        destruct (String.eqb_spec s name) as [->|]; [|reflexivity].
        exfalso; apply Hno; reflexivity. }
      rewrite E. apply IH; [exact Hn|].
      intros d' Hd'. apply Hno. right; exact Hd'.
Qed.

Lemma get_disease_variants_first_match_witness :
  get_disease_variants
    (VDict [("disease",
             VList ([VDict [("name", VStr "Open fracture")]]
                    ++ VDict [("name", VStr "Closed fracture");
                              ("type_variant", VList [VStr "first"])]
                       :: [VNone;
                           VDict [("name", VStr "Closed fracture");
                                  ("type_variant", VList [VStr "second"])]]))])
    "Closed fracture"
  = Ok (VList [VStr "first"]).
Proof.
  apply (get_disease_variants_first_match _
           [VDict [("name", VStr "Open fracture")]]
           [VNone;
            VDict [("name", VStr "Closed fracture");
                   ("type_variant", VList [VStr "second"])]]
           (VDict [("name", VStr "Closed fracture");
                   ("type_variant", VList [VStr "first"])])
           "Closed fracture"); try reflexivity.
  simpl. intros d' [<-|[]]. discriminate.
Defined.

Lemma comprehension_raises {A B : Type} (f : A -> result B) (g : A -> B)
  (before after : list A) (x : A) (e : exn) :
  (forall y, In y before -> f y = Ok (g y)) ->
  f x = Raise e ->
  comprehension f (before ++ x :: after) = Raise e.
Proof.
  intros Hb Hx. induction before as [|b bs IH]; cbn [Datatypes.app comprehension].
  - rewrite Hx. reflexivity.
  - rewrite (Hb b (or_introl eq_refl)). cbn [bind].
    rewrite IH by (intros y Hy; apply Hb; right; exact Hy). reflexivity.
Qed.

(** X6: one disease record without the key 'name' makes both lookups fail
    with KeyError('name'): get_diseases returns no list at all, and
    get_disease_variants fails for every name that no earlier disease
    bears, also when a later disease bears it. *)
Theorem nameless_disease_raises (knowledge_base : value)
  (before after : list value) (nameless : list (string * value)) :
  field "disease" knowledge_base
  = Some (VList (before ++ VDict nameless :: after)) ->
  forallb (has_key "name") before = true ->
  lookup "name" nameless = None ->
  get_diseases knowledge_base = Raise (KeyError "name")
  /\ forall name,
       (forall d, In d before -> field "name" d <> Some (VStr name)) ->
       get_disease_variants knowledge_base name = Raise (KeyError "name").
Proof.
  intros Hkb Hn Hnone. split.
  - unfold get_diseases. rewrite (getitem_field _ _ _ Hkb). cbn [bind iterate].
    apply (comprehension_raises _ (field_or "name" VNone)).
    + intros d Hd. apply getitem_has_key.
      rewrite forallb_forall in Hn. apply Hn, Hd.
    + unfold getitem. rewrite Hnone. reflexivity.
  - intros name Hno. unfold get_disease_variants.
    rewrite (getitem_field _ _ _ Hkb). cbn [bind iterate]. clear Hkb.
    induction before as [|b bs IH].
    + cbn [Datatypes.app get_disease_variants_loop]. unfold getitem at 1.
      rewrite Hnone. reflexivity.
    + cbn [forallb] in Hn. apply andb_prop in Hn. destruct Hn as [Hb Hn].
      cbn [Datatypes.app get_disease_variants_loop].
      rewrite (getitem_has_key _ _ Hb). cbn [bind].
      assert (E : eq_str (field_or "name" VNone b) name = false).
      { specialize (Hno b (or_introl eq_refl)).
        unfold has_key, field_or in *.
        destruct (field "name" b) as [v|]; [|discriminate].
        destruct v; simpl; try reflexivity.
        destruct (String.eqb_spec s name) as [->|]; [|reflexivity].
        exfalso; apply Hno; reflexivity. }
      rewrite E. apply IH; [exact Hn|].
      intros d' Hd'. apply Hno. right; exact Hd'.
Qed.

Lemma nameless_disease_raises_witness :
  get_diseases
    (VDict [("disease",
             VList ([VDict [("name", VStr "Open fracture")]]
                    ++ VDict [("type_variant", VList [])]
                       :: [VDict [("name", VStr "Closed fracture");
                                  ("type_variant", VList [])]]))])
  = Raise (KeyError "name")
  /\ get_disease_variants
       (VDict [("disease",
                VList ([VDict [("name", VStr "Open fracture")]]
                       ++ VDict [("type_variant", VList [])]
                          :: [VDict [("name", VStr "Closed fracture");
                                     ("type_variant", VList [])]]))])
       "Closed fracture"
     = Raise (KeyError "name").
Proof.
  destruct (nameless_disease_raises
              (VDict [("disease",
                       VList ([VDict [("name", VStr "Open fracture")]]
                              ++ VDict [("type_variant", VList [])]
                                 :: [VDict [("name", VStr "Closed fracture");
                                            ("type_variant", VList [])]]))])
              [VDict [("name", VStr "Open fracture")]]
              [VDict [("name", VStr "Closed fracture");
                      ("type_variant", VList [])]]
              [("type_variant", VList [])] eq_refl eq_refl eq_refl)
    as [Hd Hv].
  split; [exact Hd|]. apply Hv.
  simpl. intros d [<-|[]]. discriminate.
Defined.

(** ** Search: no match, narrowing, the keys of a result, concatenation *)

Lemma append_assoc (a b c : string) :
  ((a ++ b) ++ c = a ++ (b ++ c))%string.
Proof.
  induction a as [|x a IH]; simpl; [|rewrite IH]; reflexivity.
Qed.

Lemma append_nil_r (a : string) : (a ++ "" = a)%string.
Proof.
  induction a as [|x a IH]; simpl; [|rewrite IH]; reflexivity.
Qed.

Lemma Substring_trans (a b c : string) :
  Substring a b -> Substring b c -> Substring a c.
Proof.
  intros (p & q & ->) (p' & q' & ->).
  exists (p' ++ p)%string, (q ++ q')%string.
  rewrite !append_assoc. reflexivity.
Qed.

Lemma filter_none {A : Type} (p : A -> bool) (l : list A) :
  (forall x, In x l -> p x = false) -> filter p l = [].
Proof.
  induction l as [|x l IH]; simpl; intros Hp.
  - reflexivity.
  - rewrite (Hp x (or_introl eq_refl)). apply IH.
    intros y Hy. apply Hp. right; exact Hy.
Qed.

Lemma subsequence_refl {A : Type} (l : list A) : subsequence l l.
Proof.
  induction l; constructor; assumption.
Qed.

Lemma subsequence_app {A : Type} (l1 l1' l2 l2' : list A) :
  subsequence l1 l1' -> subsequence l2 l2' ->
  subsequence (l1 ++ l2) (l1' ++ l2').
Proof.
  induction 1; simpl; intros H2; try constructor; auto.
Qed.

Lemma subsequence_map {A B : Type} (f : A -> B) (l l' : list A) :
  subsequence l l' -> subsequence (map f l) (map f l').
Proof.
  induction 1; simpl; constructor; assumption.
Qed.

Lemma subsequence_filter {A : Type} (p q : A -> bool) (l : list A) :
  (forall x, p x = true -> q x = true) ->
  subsequence (filter p l) (filter q l).
Proof.
  intros Hpq. induction l as [|x l IH]; simpl.
  - constructor.
  - destruct (p x) eqn:Hp.
    + rewrite (Hpq x Hp). constructor; exact IH.
    + destruct (q x); [constructor|]; exact IH.
Qed.

Lemma subsequence_flat_map {A B : Type} (f g : A -> list B) (l : list A) :
  (forall x, subsequence (f x) (g x)) ->
  subsequence (flat_map f l) (flat_map g l).
Proof.
  intros Hfg. induction l as [|x l IH]; simpl.
  - constructor.
  - apply subsequence_app; [apply Hfg | exact IH].
Qed.

Lemma existsb_mono {A : Type} (p q : A -> bool) (l : list A) :
  (forall x, p x = true -> q x = true) ->
  existsb p l = true -> existsb q l = true.
Proof.
  intros Hpq. rewrite !existsb_exists. intros (x & Hin & Hp).
  exists x. split; [exact Hin | apply Hpq, Hp].
Qed.

Lemma formats_functional (h : hit) (r r' : value) :
  formats h r -> formats h r' -> r = r'.
Proof.
  destruct h as [[p m]|[p j]]; simpl;
    intros (n & En & E) (n' & En' & E');
    rewrite En in En'; injection En' as <-;
    rewrite E in E'; injection E' as <-; reflexivity.
Qed.

Lemma Forall2_formats_functional (hs : list hit) (rs rs' : list value) :
  Forall2 formats hs rs -> Forall2 formats hs rs' -> rs = rs'.
Proof.
  intros F. revert rs'. induction F as [|h r hs rs Hf _ IH]; intros rs' F'.
  - inversion F'. reflexivity.
  - inversion F' as [|? r' ? rs'' Hf' F'']; subst.
    rewrite (formats_functional _ _ _ Hf Hf'), (IH _ F''). reflexivity.
Qed.

Lemma subsequence_formats (hs hs' : list hit) :
  subsequence hs hs' ->
  forall rs rs', Forall2 formats hs rs -> Forall2 formats hs' rs' ->
                 subsequence rs rs'.
Proof.
  induction 1 as [|h hs hs' _ IH|h hs hs' _ IH]; intros rs rs' F F'.
  - inversion F; inversion F'; constructor.
  - inversion F as [|? r ? rs0 Hf F0]; subst.
    inversion F' as [|? r' ? rs0' Hf' F0']; subst.
    rewrite (formats_functional _ _ _ Hf Hf'). constructor.
    apply IH; assumption.
  - inversion F' as [|? r' ? rs0' Hf' F0']; subst. constructor.
    apply IH; assumption.
Qed.

Lemma Forall2_right {A B : Type} (R : A -> B -> Prop) (P : B -> Prop)
  (l : list A) (l' : list B) :
  (forall x y, R x y -> P y) -> Forall2 R l l' -> Forall P l'.
Proof.
  intros HP. induction 1; constructor; eauto.
Qed.

Section SearchFurther.

Variable lower : string -> string.
Variable repr : value -> string.

(** X7: when the keyword occurs in no alternative method and in no
    non-empty joint block of a well-shaped document, the search returns
    the empty list. *)
Theorem search_no_match (knowledge_base : value) (K : string) :
  document_ok knowledge_base = true ->
  (forall o, In o (alternative_methods knowledge_base) ->
             ~ method_mentions lower repr K (snd o)) ->
  (forall o, In o (nonempty_joint_blocks knowledge_base) ->
             ~ joint_mentions lower repr K (snd o)) ->
  search_methods_by_keyword lower repr knowledge_base K = Ok [].
Proof.
  intros Hok Ha Hj.
  destruct (search_hits lower repr K knowledge_base Hok) as (results & E & F).
  assert (Hlen : List.length (hits lower repr K knowledge_base) = 0).
  { rewrite parts_length, alt_part_hits, joint_part_hits.
    rewrite !filter_none; [reflexivity | |].
    - intros o Hin. destruct (joint_mentionsb lower repr K (snd o)) eqn:Hm;
        [|reflexivity].
      exfalso. apply (Hj o Hin). apply joint_mentionsb_iff, Hm.
    - intros o Hin. destruct (method_mentionsb lower repr K (snd o)) eqn:Hm;
        [|reflexivity].
      exfalso. apply (Ha o Hin). apply method_mentionsb_iff, Hm. }
  rewrite E. destruct (hits lower repr K knowledge_base); [|discriminate].
  inversion F. reflexivity.
Qed.

Lemma mentionsb_narrow (K K' t : string) :
  Substring (lower K) (lower K') ->
  mentionsb lower K' t = true -> mentionsb lower K t = true.
Proof.
  intros HK. unfold mentionsb. rewrite !str_in_Substring.
  apply Substring_trans, HK.
Qed.

Lemma stage_hits_narrow (K K' : string) (p : place) :
  Substring (lower K) (lower K') ->
  subsequence (stage_hits lower repr K' p) (stage_hits lower repr K p).
Proof.
  intros HK. unfold stage_hits.
  apply subsequence_app; apply subsequence_map; apply subsequence_filter.
  - intros o. unfold method_mentionsb. rewrite !orb_true_iff.
    intros [[[[H|H]|H]|H]|H].
    + left; left; left; left. apply (mentionsb_narrow _ _ _ HK H).
    + left; left; left; right.
      apply (existsb_mono _ _ _ (fun t => mentionsb_narrow _ _ t HK) H).
    + left; left; right.
      apply (existsb_mono _ _ _ (fun t => mentionsb_narrow _ _ t HK) H).
    + left; right.
      apply (existsb_mono _ _ _ (fun t => mentionsb_narrow _ _ t HK) H).
    + right. apply (mentionsb_narrow _ _ _ HK H).
  - intros o. rewrite !andb_true_iff. intros [Ht H]. split; [exact Ht|].
    revert H. unfold joint_mentionsb. rewrite !orb_true_iff.
    intros [[H|H]|H].
    + left; left.
      apply (existsb_mono _ _ _ (fun t => mentionsb_narrow _ _ t HK) H).
    + left; right. apply (mentionsb_narrow _ _ _ HK H).
    + right. revert H. apply existsb_mono. intros m.
      unfold joint_method_mentionsb. rewrite !orb_true_iff.
      intros [[H|H]|H].
      * left; left. apply (mentionsb_narrow _ _ _ HK H).
      * left; right.
        apply (existsb_mono _ _ _ (fun t => mentionsb_narrow _ _ t HK) H).
      * right.
        apply (existsb_mono _ _ _ (fun t => mentionsb_narrow _ _ t HK) H).
Qed.

(** X8: a longer keyword narrows the search: when K occurs in K'
    (lowercase forms), the results of the search for K' over a well-shaped
    document are among the results of the search for K, in the same
    order. *)
Theorem search_narrows (knowledge_base : value) (K K' : string) :
  document_ok knowledge_base = true ->
  Substring (lower K) (lower K') ->
  exists results results',
    search_methods_by_keyword lower repr knowledge_base K = Ok results
    /\ search_methods_by_keyword lower repr knowledge_base K' = Ok results'
    /\ subsequence results' results.
Proof.
  intros Hok HK.
  destruct (search_hits lower repr K knowledge_base Hok) as (results & E & F).
  destruct (search_hits lower repr K' knowledge_base Hok)
    as (results' & E' & F').
  exists results, results'. split; [exact E|]. split; [exact E'|].
  apply (subsequence_formats (hits lower repr K' knowledge_base)
           (hits lower repr K knowledge_base)); try assumption.
  unfold hits. apply subsequence_flat_map. intros p.
  apply stage_hits_narrow, HK.
Qed.

(** X9: every result of a search over a well-shaped document has the
    thirteen keys of [result_keys], so reading one by subscript cannot
    fail; it is of type "alternative", without "joint_methods", or of type
    "joint", and then its medicines, materials and pages are empty lists,
    its persuasiveness and evidence empty strings, and it carries
    "joint_methods". *)
Theorem search_result_keys (knowledge_base : value) (K : string) :
  document_ok knowledge_base = true ->
  exists results,
    search_methods_by_keyword lower repr knowledge_base K = Ok results
    /\ Forall
         (fun r =>
            (forall key, In key result_keys -> has_key key r = true)
            /\ ((has_type "alternative" r = true
                 /\ has_key "joint_methods" r = false)
                \/ (has_type "joint" r = true
                    /\ getitem r "medicines" = Ok (VList [])
                    /\ getitem r "materials" = Ok (VList [])
                    /\ getitem r "pages" = Ok (VList [])
                    /\ getitem r "persuasiveness" = Ok (VStr "")
                    /\ getitem r "evidence" = Ok (VStr "")
                    /\ has_key "joint_methods" r = true)))
         results.
Proof.
  intros Hok.
  destruct (search_hits lower repr K knowledge_base Hok) as (results & E & F).
  exists results. split; [exact E|].
  apply (Forall2_right formats _ _ _) with (2 := F).
  intros [[p m]|[p j]] r; simpl; intros (n & _ & Er).
  - unfold _format_method_result in Er. step_binds. injection Er as <-.
    split.
    + intros key Hin. simpl in Hin.
      repeat (destruct Hin as [<-|Hin]; [reflexivity|]). contradiction.
    + left. split; reflexivity.
  - unfold _format_joint_result in Er. step_binds. injection Er as <-.
    split.
    + intros key Hin. simpl in Hin.
      repeat (destruct Hin as [<-|Hin]; [reflexivity|]). contradiction.
    + right. repeat split; reflexivity.
Qed.

(** X10: the search runs through the diseases one after the other: over a
    well-shaped document whose diseases are those of one document followed
    by those of another, it returns the results for the first followed by
    the results for the second. *)
Theorem search_concatenates (kb kb1 kb2 : value) (ds1 ds2 : list value)
  (K : string) :
  field "disease" kb1 = Some (VList ds1) ->
  field "disease" kb2 = Some (VList ds2) ->
  field "disease" kb = Some (VList (ds1 ++ ds2)) ->
  document_ok kb1 = true -> document_ok kb2 = true ->
  exists r1 r2,
    search_methods_by_keyword lower repr kb1 K = Ok r1
    /\ search_methods_by_keyword lower repr kb2 K = Ok r2
    /\ search_methods_by_keyword lower repr kb K = Ok (r1 ++ r2).
Proof.
  intros H1 H2 H Hok1 Hok2.
  assert (Hok : document_ok kb = true).
  { unfold document_ok in *. rewrite H1 in Hok1. rewrite H2 in Hok2.
    rewrite H, forallb_app, Hok1, Hok2. reflexivity. }
  destruct (search_hits lower repr K kb1 Hok1) as (r1 & E1 & F1).
  destruct (search_hits lower repr K kb2 Hok2) as (r2 & E2 & F2).
  destruct (search_hits lower repr K kb Hok) as (r & E & F).
  exists r1, r2. split; [exact E1|]. split; [exact E2|].
  rewrite E. f_equal.
  apply (Forall2_formats_functional (hits lower repr K kb)); [exact F|].
  replace (hits lower repr K kb)
    with (hits lower repr K kb1 ++ hits lower repr K kb2).
  - apply Forall2_app; assumption.
  - unfold hits, places, list_field. rewrite H, H1, H2.
    rewrite !flat_map_app. reflexivity.
Qed.

End SearchFurther.

Lemma search_no_match_witness :
  search_methods_by_keyword ascii_lower no_repr sample_document "aspirin"
  = Ok [].
Proof.
  apply (search_no_match ascii_lower no_repr sample_document "aspirin").
  - reflexivity.
  - intros o Hin Hm. apply method_mentionsb_iff in Hm.
    simpl in Hin. destruct Hin as [<-|[<-|[]]]; discriminate Hm.
  - intros o Hin Hm. apply joint_mentionsb_iff in Hm.
    simpl in Hin. destruct Hin as [<-|[]]. discriminate Hm.
Defined.

Lemma search_narrows_witness :
  document_ok sample_document = true
  /\ Substring (ascii_lower "Plate") (ascii_lower "PLATE FIX")
  /\ exists results results',
       search_methods_by_keyword ascii_lower no_repr sample_document "Plate"
       = Ok results
       /\ search_methods_by_keyword ascii_lower no_repr sample_document
            "PLATE FIX" = Ok results'
       /\ subsequence results' results.
Proof.
  assert (HS : Substring (ascii_lower "Plate") (ascii_lower "PLATE FIX")).
  { exists "", " fix". reflexivity. }
  split; [reflexivity|]. split; [exact HS|].
  apply (search_narrows ascii_lower no_repr sample_document "Plate"
           "PLATE FIX" eq_refl HS).
Defined.

Lemma search_result_keys_witness :
  document_ok sample_document = true
  /\ exists results,
       search_methods_by_keyword ascii_lower no_repr sample_document
         "fracture" = Ok results
       /\ Forall (fun r => has_key "medicines" r = true) results.
Proof.
  split; [reflexivity|].
  destruct (search_result_keys ascii_lower no_repr sample_document "fracture"
              eq_refl) as (results & E & F).
  exists results. split; [exact E|].
  apply (Forall_impl _ (P := _) (fun r H => proj1 H "medicines"
                                   (or_intror (or_intror (or_intror
                                     (or_intror (or_intror (or_intror
                                       (or_introl eq_refl)))))))) F).
Defined.

Lemma search_concatenates_witness :
  exists r1 r2,
    search_methods_by_keyword ascii_lower no_repr sample_document "e" = Ok r1
    /\ search_methods_by_keyword ascii_lower no_repr
         (scenario_document "varik1") "e" = Ok r2
    /\ search_methods_by_keyword ascii_lower no_repr
         (VDict [("disease",
                  VList (sample_diseases
                         ++ [VDict [("name", VStr "Closed fracture");
                                    ("type_variant",
                                     VList [scenario_variant "varik1"])]]))])
         "e" = Ok (r1 ++ r2).
Proof.
  apply (search_concatenates ascii_lower no_repr _ sample_document
           (scenario_document "varik1") sample_diseases
           [VDict [("name", VStr "Closed fracture");
                   ("type_variant", VList [scenario_variant "varik1"])]]
           "e"); reflexivity.
Defined.

(** ** The constructor *)



(** ** The totals of the knowledge-base page *)

Lemma field_or_list (key : string) (obj : value) :
  list_or_absent key obj = true ->
  field_or key (VList []) obj = VList (list_field key obj).
Proof.
  unfold list_or_absent, field_or, list_field.
  destruct (field key obj) as [[]|]; try discriminate; reflexivity.
Qed.

Lemma joint_of_methods (stage : value) :
  stage_ok stage = true -> joint_is_dict stage = true ->
  list_or_absent "methods" (joint_of stage) = true.
Proof.
  unfold stage_ok, joint_is_dict, joint_of, field_or.
  rewrite !andb_true_iff. intros [_ Hj] Hd.
  destruct (field "joint methods" stage) as [j|]; [|reflexivity].
  destruct (truthy j) eqn:Ht; cbn [negb orb] in Hj.
  - unfold joint_ok in Hj. rewrite !andb_true_iff in Hj. apply Hj.
  - destruct j; try discriminate. destruct d; [reflexivity | discriminate].
Qed.

Lemma count_stage_totals (stage : value) (a b c : nat) :
  stage_ok stage = true -> joint_is_dict stage = true ->
  count_stage (a, b, c) stage
  = Ok (a,
        b + List.length (list_field "alternative methods" stage),
        c + List.length (list_field "methods" (joint_of stage))).
Proof.
  intros Hok Hd. pose proof (joint_of_methods stage Hok Hd) as Hm.
  unfold stage_ok in Hok. rewrite !andb_true_iff in Hok.
  destruct Hok as [[[[Hs _] Halt] _] _].
  unfold count_stage.
  rewrite !(dict_get_field_or _ _ _ Hs). cbn [bind].
  rewrite (field_or_list _ _ Halt). cbn [len bind].
  fold (joint_of stage). unfold joint_is_dict in Hd.
  rewrite (dict_get_field_or _ _ _ Hd). cbn [bind].
  unfold list_or_absent, list_field, field_or in *.
  destruct (joint_of stage) as [| | | | | |jd]; try discriminate.
  unfold getitem. cbn [field] in *.
  destruct (lookup "methods" jd) as [[| | | | |l|]|]; try discriminate.
  - destruct l; cbn [truthy bind len List.length].
    + rewrite Nat.add_0_r. reflexivity.
    + reflexivity.
  - cbn [truthy List.length]. rewrite Nat.add_0_r. reflexivity.
Qed.

Lemma count_stages_totals (stages : list value) (a b c : nat) :
  forallb stage_ok stages = true -> forallb joint_is_dict stages = true ->
  for_each stages count_stage (a, b, c)
  = Ok (a,
        b + List.length (flat_map (list_field "alternative methods") stages),
        c + List.length
              (flat_map (fun s => list_field "methods" (joint_of s)) stages)).
Proof.
  revert b c. induction stages as [|s stages IH]; intros b c Hok Hd.
  - simpl. rewrite !Nat.add_0_r. reflexivity.
  - cbn [forallb] in Hok, Hd. apply andb_prop in Hok. apply andb_prop in Hd.
    destruct Hok as [Hs Hok]. destruct Hd as [Hsd Hd].
    cbn [for_each]. rewrite (count_stage_totals s a b c Hs Hsd). cbn [bind].
    rewrite (IH _ _ Hok Hd). cbn [flat_map]. rewrite !length_app.
    rewrite !Nat.add_assoc. reflexivity.
Qed.

Lemma count_group_totals (key : string) (i : nat) (g : value) (a b c : nat) :
  group_ok g = true ->
  forallb joint_is_dict (list_field "stage" g) = true ->
  count_group (a, b, c) (entry_of key (i, g))
  = Ok (a + List.length (list_field "stage" g),
        b + List.length
              (flat_map (list_field "alternative methods")
                        (list_field "stage" g)),
        c + List.length
              (flat_map (fun s => list_field "methods" (joint_of s))
                        (list_field "stage" g))).
Proof.
  unfold group_ok. rewrite !andb_true_iff. intros [[Hg Hst] Hstages] Hd.
  unfold count_group.
  change (getitem (entry_of key (i, g)) "data") with (@Ok value g).
  cbn [bind]. rewrite (dict_get_field_or _ _ _ Hg). cbn [bind].
  rewrite (field_or_list _ _ Hst). cbn [len bind iterate].
  apply count_stages_totals; assumption.
Qed.

Lemma stage_alternatives_length (d v g : value) (stages : list value) :
  List.length (flat_map stage_alternatives (map (Place d v g) stages))
  = List.length (flat_map (list_field "alternative methods") stages).
Proof.
  induction stages as [|s stages IH]; simpl.
  - reflexivity.
  - rewrite !length_app, IH. unfold stage_alternatives.
    rewrite length_map. reflexivity.
Qed.

Lemma joint_methods_length (d v g : value) (stages : list value) :
  List.length
    (flat_map (fun p => list_field "methods" (joint_of (place_stage p)))
              (map (Place d v g) stages))
  = List.length
      (flat_map (fun s => list_field "methods" (joint_of s)) stages).
Proof.
  induction stages as [|s stages IH]; simpl.
  - reflexivity.
  - rewrite !length_app, IH. reflexivity.
Qed.

Lemma forallb_of_map {A B : Type} (f : A -> B) (p : B -> bool) (l : list A) :
  forallb p (map f l) = forallb (fun x => p (f x)) l.
Proof.
  induction l as [|x l IH]; simpl; [|rewrite IH]; reflexivity.
Qed.

Lemma count_groups_totals (d v : value) (groups : list value) (a b c : nat) :
  Forall (fun e => exists key i g,
              e = entry_of key (i, g) /\ group_ok g = true) groups ->
  forallb (fun p => joint_is_dict (place_stage p))
          (flat_map (group_places d v) groups) = true ->
  for_each groups count_group (a, b, c)
  = Ok (a + List.length (flat_map (group_places d v) groups),
        b + List.length
              (flat_map stage_alternatives
                        (flat_map (group_places d v) groups)),
        c + List.length
              (flat_map
                 (fun p => list_field "methods" (joint_of (place_stage p)))
                 (flat_map (group_places d v) groups))).
Proof.
  revert a b c. induction groups as [|e groups IH]; intros a b c He Hd.
  - simpl. rewrite !Nat.add_0_r. reflexivity.
  - pose proof (Forall_inv_tail He) as He'.
    destruct (Forall_inv He) as (key & i & g & Ee & Hg). subst e. clear He.
    change (flat_map (group_places d v) (entry_of key (i, g) :: groups))
      with (group_places d v (entry_of key (i, g))
            ++ flat_map (group_places d v) groups) in *.
    rewrite forallb_app in Hd.
    apply andb_prop in Hd. destruct Hd as [Hd1 Hd2].
    unfold group_places at 1 in Hd1.
    change (field_or "data" VNone (entry_of key (i, g))) with g in Hd1.
    rewrite forallb_of_map in Hd1. cbn [place_stage] in Hd1.
    cbn [for_each]. rewrite (count_group_totals key i g a b c Hg Hd1).
    cbn [bind]. rewrite (IH _ _ _ He' Hd2).
    rewrite !flat_map_app, !length_app.
    assert (Egp : group_places d v (entry_of key (i, g))
                  = map (Place d v (entry_of key (i, g)))
                        (list_field "stage" g)) by reflexivity.
    rewrite !Egp.
    rewrite stage_alternatives_length, joint_methods_length, length_map.
    rewrite !Nat.add_assoc. reflexivity.
Qed.

(** X12: for a well-shaped variant whose joint blocks are dicts, the totals
    of the knowledge-base page are the number of stages of the variant's
    groups, the number of their alternative methods and the number of
    methods inside their joint blocks (the methods, not the blocks). *)
Theorem knowledge_base_totals_count (d : value)
  (items : list (string * value)) :
  variant_ok (VDict items) = true ->
  forallb (fun p => joint_is_dict (place_stage p))
          (variant_places d (VDict items)) = true ->
  exists groups,
    get_patient_groups (VDict items) = Ok groups
    /\ knowledge_base_totals groups
       = Ok (List.length (variant_places d (VDict items)),
             List.length
               (flat_map stage_alternatives (variant_places d (VDict items))),
             List.length
               (flat_map
                  (fun p => list_field "methods" (joint_of (place_stage p)))
                  (variant_places d (VDict items)))).
Proof.
  intros Hv Hd. unfold variant_ok in Hv. apply andb_prop in Hv.
  destruct Hv as [_ Hok].
  exists (expected_groups items). split.
  - apply get_patient_groups_expected, group_fields_hold_dicts, Hok.
  - unfold knowledge_base_totals.
    apply (count_groups_totals d (VDict items) (expected_groups items) 0 0 0).
    + apply Forall_forall. intros e Hin.
      apply (expected_groups_entries items e Hok Hin).
    + exact Hd.
Qed.

Lemma knowledge_base_totals_count_witness :
  variant_ok (VDict sample_items) = true
  /\ exists groups,
       get_patient_groups (VDict sample_items) = Ok groups
       /\ knowledge_base_totals groups = Ok (1, 2, 2).
Proof.
  split; [reflexivity|].
  apply (knowledge_base_totals_count VNone sample_items); reflexivity.
Defined.

(** ** The treatment report *)

Lemma prepend_prepend (a b : string) (r : result string) :
  prepend a (prepend b r) = prepend (a ++ b) r.
Proof.
  destruct r; simpl; [rewrite append_assoc|]; reflexivity.
Qed.

Lemma for_each_prepend (body : string -> value -> result string)
  (xs : list value) :
  (forall acc x, body acc x = prepend acc (body "" x)) ->
  forall acc, for_each xs body acc = prepend acc (for_each xs body "").
Proof.
  intros Hb. induction xs as [|x xs IH]; intros acc.
  - simpl. rewrite append_nil_r. reflexivity.
  - cbn [for_each]. rewrite (Hb acc x).
    destruct (body "" x) as [t|e]; cbn [prepend bind]; [|reflexivity].
    rewrite (IH (acc ++ t)%string), (IH t), prepend_prepend. reflexivity.
Qed.

Ltac head_computation c :=
  lazymatch c with
  | bind ?c' _ => head_computation c'
  | prepend _ ?c' => head_computation c'
  | (if truthy ?v then _ else _) => constr:(truthy v)
  | for_each _ _ _ => fail
  | _ => c
  end.

Ltac report_step :=
  lazymatch goal with
  | |- Ok _ = _ => fail
  | |- Raise _ = _ => fail
  | |- ?L = _ =>
      let h := head_computation L in
      destruct h; cbn [bind prepend]; try reflexivity
  end.

Ltac report_leaf :=
  cbn [bind prepend]; try reflexivity;
  try (f_equal; rewrite ?append_assoc; reflexivity).

Section ReportProperties.

Variable repr : value -> string.

Lemma report_alt_method_prepend (acc : string) (m : value) :
  report_alt_method repr acc m = prepend acc (report_alt_method repr "" m).
Proof.
  unfold report_alt_method. repeat report_step; report_leaf.
Qed.

Lemma report_joint_method_prepend (acc : string) (m : value) :
  report_joint_method repr acc m
  = prepend acc (report_joint_method repr "" m).
Proof.
  unfold report_joint_method. repeat report_step; report_leaf.
Qed.

Lemma report_stage_prepend (acc : string) (stage : value) :
  report_stage repr acc stage = prepend acc (report_stage repr "" stage).
Proof.
  unfold report_stage.
  destruct (getitem stage "name_stage") as [stage_name|e];
    cbn [bind prepend]; [|reflexivity].
  destruct (dict_get stage "alternative methods" (VList [])) as [alts|e];
    cbn [bind prepend]; [|reflexivity].
  assert (Halt :
            forall text,
              (if truthy alts then
                 methods <- iterate alts ;;
                 for_each methods (report_alt_method repr)
                   (text ++ (nl ++ "**Альтернативные методы:**" ++ nl))%string
               else Ok text)
              = prepend text
                  (if truthy alts then
                     methods <- iterate alts ;;
                     for_each methods (report_alt_method repr)
                       (nl ++ "**Альтернативные методы:**" ++ nl)%string
                   else Ok "")).
  { intros text. destruct (truthy alts).
    - destruct (iterate alts) as [methods|e]; cbn [bind prepend]; [|reflexivity].
      rewrite (for_each_prepend _ methods report_alt_method_prepend
                 (text ++ _)%string).
      rewrite (for_each_prepend _ methods report_alt_method_prepend
                 (nl ++ _)%string).
      rewrite prepend_prepend. reflexivity.
    - simpl. rewrite append_nil_r. reflexivity. }
  rewrite (Halt (acc ++ (nl ++ "### " ++ fmt repr stage_name ++ nl))%string).
  rewrite (Halt ("" ++ (nl ++ "### " ++ fmt repr stage_name ++ nl))%string).
  clear Halt.
  match goal with
  | |- context [prepend _ ?c] => destruct c as [t|e]
  end; cbn [bind prepend]; [|reflexivity].
  destruct (dict_get stage "joint methods" (VDict [])) as [joint|e];
    cbn [bind prepend]; [|reflexivity].
  repeat report_step; report_leaf.
  all: match goal with
       | |- for_each ?xs _ ?s = prepend _ (for_each ?xs _ ?s') =>
           rewrite (for_each_prepend _ xs report_joint_method_prepend s),
             (for_each_prepend _ xs report_joint_method_prepend s'),
             prepend_prepend;
           f_equal; rewrite ?append_assoc; reflexivity
       end.
Qed.

Lemma report_stages_sections (stages : list value) (acc t : string) :
  for_each stages (report_stage repr) acc = Ok t ->
  exists sections,
    Forall2 (fun stage section => report_stage repr "" stage = Ok section)
            stages sections
    /\ t = (acc ++ fold_right String.append "" sections)%string.
Proof.
  revert acc t. induction stages as [|s stages IH]; intros acc t.
  - simpl. intros [= <-]. exists []. split; [constructor|].
    simpl. rewrite append_nil_r. reflexivity.
  - cbn [for_each]. rewrite report_stage_prepend.
    destruct (report_stage repr "" s) as [section|e] eqn:Es;
      cbn [prepend bind]; [|discriminate].
    intros E. destruct (IH _ _ E) as (sections & F & ->).
    exists (section :: sections). split.
    + constructor; [exact Es | exact F].
    + simpl. rewrite append_assoc. reflexivity.
Qed.

(** X14: whenever the report is made, its text is the head (title, variant,
    ICD-10 code, group description) followed by one section per stage of
    the plan, in the order of the plan; the section of a stage is what the
    stage alone gives, whatever comes before it. *)
Theorem report_is_head_and_sections (group_plan variant : value)
  (d : download_button) :
  generate_treatment_report repr group_plan variant = Ok d ->
  exists plan_variant icd description stages_value stages sections,
    getitem group_plan "variant" = Ok plan_variant
    /\ getitem variant "ICD-10_code" = Ok icd
    /\ getitem group_plan "group_description" = Ok description
    /\ getitem group_plan "stages" = Ok stages_value
    /\ iterate stages_value = Ok stages
    /\ Forall2 (fun stage section => report_stage repr "" stage = Ok section)
              stages sections
    /\ data d
       = (report_head repr plan_variant icd description
          ++ fold_right String.append "" sections)%string.
Proof.
  unfold generate_treatment_report. intros E.
  destruct (getitem group_plan "variant") as [pv|]; cbn [bind] in E;
    [|discriminate].
  destruct (getitem variant "ICD-10_code") as [icd|]; cbn [bind] in E;
    [|discriminate].
  destruct (getitem group_plan "group_description") as [desc|];
    cbn [bind] in E; [|discriminate].
  destruct (getitem group_plan "stages") as [sv|]; cbn [bind] in E;
    [|discriminate].
  destruct (iterate sv) as [stages|] eqn:Ei; cbn [bind] in E; [|discriminate].
  destruct (for_each stages (report_stage repr) (report_head repr pv icd desc))
    as [t|] eqn:Et; cbn [bind] in E; [|discriminate].
  destruct (replace_spaces pv) as [name|]; cbn [bind] in E; [|discriminate].
  injection E as <-.
  destruct (report_stages_sections _ _ _ Et) as (sections & F & ->).
  exists pv, icd, desc, sv, stages, sections.
  repeat split; try reflexivity; assumption.
Qed.

Lemma has_char_app (c : ascii) (a b : string) :
  has_char c (a ++ b) = has_char c a || has_char c b.
Proof.
  induction a as [|x a IH]; simpl.
  - reflexivity.
  - rewrite IH. apply orb_assoc.
Qed.

Lemma replace_no_old (old new : ascii) (s : string) :
  Ascii.eqb new old = false -> has_char old (replace old new s) = false.
Proof.
  intros Hne. induction s as [|c s IH]; simpl.
  - reflexivity.
  - rewrite IH, orb_false_r. destruct (Ascii.eqb c old) eqn:Ec.
    + exact Hne.
    + exact Ec.
Qed.

Lemma replace_length (old new : ascii) (s : string) :
  String.length (replace old new s) = String.length s.
Proof.
  induction s as [|c s IH]; simpl; [|rewrite IH]; reflexivity.
Qed.

Lemma replace_without_old (old new : ascii) (s : string) :
  has_char old s = false -> replace old new s = s.
Proof.
  induction s as [|c s IH]; simpl.
  - reflexivity.
  - intros H. apply orb_false_elim in H. destruct H as [Hc Hs].
    rewrite Hc, (IH Hs). reflexivity.
Qed.

Lemma append_length (a b : string) :
  String.length (a ++ b) = String.length a + String.length b.
Proof.
  induction a as [|x a IH]; simpl; [|rewrite IH]; reflexivity.
Qed.

(** X15: whenever the report is made, the plan's variant is a str s and the
    download is offered as text/markdown under the name
    treatment_plan_<s with every space turned into an underscore>.md: the
    file name holds no space, is 18 characters longer than s, and is
    treatment_plan_<s>.md when s has no space. *)
Theorem report_file_name (group_plan variant : value) (d : download_button) :
  generate_treatment_report repr group_plan variant = Ok d ->
  exists s,
    getitem group_plan "variant" = Ok (VStr s)
    /\ file_name d = ("treatment_plan_" ++ replace " " "_" s ++ ".md")%string
    /\ has_char " " (file_name d) = false
    /\ String.length (file_name d) = 18 + String.length s
    /\ (has_char " " s = false ->
        file_name d = ("treatment_plan_" ++ s ++ ".md")%string)
    /\ mime d = "text/markdown".
Proof.
  unfold generate_treatment_report. intros E.
  destruct (getitem group_plan "variant") as [pv|]; cbn [bind] in E;
    [|discriminate].
  destruct (getitem variant "ICD-10_code") as [icd|]; cbn [bind] in E;
    [|discriminate].
  destruct (getitem group_plan "group_description") as [desc|];
    cbn [bind] in E; [|discriminate].
  destruct (getitem group_plan "stages") as [sv|]; cbn [bind] in E;
    [|discriminate].
  destruct (iterate sv) as [stages|]; cbn [bind] in E; [|discriminate].
  destruct (for_each stages (report_stage repr) (report_head repr pv icd desc))
    as [t|]; cbn [bind] in E; [|discriminate].
  destruct pv as [| | | |s| |]; try discriminate E.
  cbn [replace_spaces bind] in E. injection E as <-.
  exists s. cbn [file_name mime].
  split; [reflexivity|]. split; [reflexivity|]. split; [|split; [|split]].
  - change (has_char " " ("treatment_plan_" ++ (replace " " "_" s ++ ".md"))
            = false).
    rewrite !has_char_app, replace_no_old by reflexivity. reflexivity.
  - change (String.length
              ("treatment_plan_" ++ (replace " " "_" s ++ ".md"))
            = 18 + String.length s).
    rewrite !append_length, replace_length. simpl. lia.
  - intros Hs. rewrite (replace_without_old _ _ _ Hs). reflexivity.
  - reflexivity.
Qed.

Lemma lookup_without_key (key key' : string) (d : list (string * value)) :
  lookup key' (without_key key d)
  = if String.eqb key key' then None else lookup key' d.
Proof.
  induction d as [|[k v] d IH]; simpl.
  - destruct (String.eqb key key'); reflexivity.
  - destruct (String.eqb_spec k key) as [->|Hk].
    + rewrite IH. destruct (String.eqb key key'); reflexivity.
    + simpl. rewrite IH. destruct (String.eqb_spec k key') as [->|Hk'].
      * destruct (String.eqb_spec key key') as [->|_]; [|reflexivity].
        exfalso; apply Hk; reflexivity.
      * reflexivity.
Qed.

(** X16: the report shows a joint block only when the block has methods: a
    stage whose joint block is empty, or is a dict whose 'methods' is
    absent or empty, gets the section it would get without the block; the
    block's own indications and recommendations are then left out. *)
Theorem report_omits_joint_without_methods (acc : string)
  (items : list (string * value)) (j : value) :
  lookup "joint methods" items = Some j ->
  truthy j = false
  \/ (is_dict j = true /\ truthy (field_or "methods" VNone j) = false) ->
  report_stage repr acc (VDict items)
  = report_stage repr acc (VDict (without_key "joint methods" items)).
Proof.
  intros Hj Hempty. unfold report_stage, getitem, dict_get.
  rewrite !lookup_without_key. cbn [String.eqb Ascii.eqb Bool.eqb].
  rewrite Hj.
  destruct (lookup "name_stage" items) as [stage_name|]; [|reflexivity].
  cbn [bind].
  destruct (lookup "alternative methods" items) as [alts|]; cbn [bind].
  - match goal with
    | |- bind ?c _ = _ => destruct c as [t|e]
    end; [|reflexivity].
    cbn [bind truthy]. destruct Hempty as [Hf|[Hd Hm]].
    + rewrite Hf. reflexivity.
    + destruct (truthy j); [|reflexivity].
      destruct j; try discriminate. unfold field_or, field in Hm.
      destruct (lookup "methods" d) as [m|]; cbn [bind]; rewrite ?Hm;
        reflexivity.
  - cbn [truthy bind]. destruct Hempty as [Hf|[Hd Hm]].
    + rewrite Hf. reflexivity.
    + destruct (truthy j); [|reflexivity].
      destruct j; try discriminate. unfold field_or, field in Hm.
      destruct (lookup "methods" d) as [m|]; cbn [bind]; rewrite ?Hm;
        reflexivity.
Qed.

Lemma for_each_ok {A S : Type} (body : S -> A -> result S) (xs : list A) :
  (forall x, In x xs -> forall s, exists s', body s x = Ok s') ->
  forall s, exists s', for_each xs body s = Ok s'.
Proof.
  induction xs as [|x xs IH]; intros Hb s.
  - exists s. reflexivity.
  - destruct (Hb x (or_introl eq_refl) s) as (s1 & E1).
    cbn [for_each]. rewrite E1. cbn [bind].
    apply IH. intros y Hy. apply Hb. right; exact Hy.
Qed.

Lemma report_alt_method_ok (m : value) (acc : string) :
  method_ok m = true -> exists t, report_alt_method repr acc m = Ok t.
Proof.
  destruct m as [| | | | | |d]; try discriminate.
  unfold method_ok, list_or_absent. cbn [is_dict field andb].
  rewrite !andb_true_iff. intros [[Hi Hm] Hu].
  unfold report_alt_method, dict_get, getitem.
  destruct (lookup "name method" d); cbn [bind];
    (destruct (lookup "indications" d) as [[| | | | |li|]|];
     try discriminate Hi);
    (destruct (lookup "medicines" d) as [[| | | | |lm|]|];
     try discriminate Hm);
    (destruct (lookup "used material" d) as [[| | | | |lu|]|];
     try discriminate Hu);
    destruct (lookup "recommendations" d) as [r|];
    try destruct li; try destruct lm; try destruct lu;
    cbn [bind truthy iterate];
    try destruct (truthy r); cbn [bind];
    eexists; reflexivity.
Qed.

Lemma report_joint_method_ok (m : value) (acc : string) :
  joint_method_ok m = true ->
  forallb is_str (list_field "medicines" m) = true ->
  forallb is_str (list_field "used material" m) = true ->
  exists t, report_joint_method repr acc m = Ok t.
Proof.
  destruct m as [| | | | | |d]; try discriminate.
  unfold joint_method_ok, list_or_absent, list_field.
  cbn [is_dict field andb]. rewrite !andb_true_iff.
  intros [[_ Hm] Hu] Sm Su.
  unfold report_joint_method, dict_get, getitem.
  destruct (lookup "name method" d); cbn [bind];
    (destruct (lookup "medicines" d) as [[| | | | |lm|]|];
     try discriminate Hm);
    (destruct (lookup "used material" d) as [[| | | | |lu|]|];
     try discriminate Hu);
    try (destruct lm as [|xm lm]); try (destruct lu as [|xu lu]);
    cbn [bind truthy iterate];
    try (destruct (join_strs ", " (xm :: lm) Sm) as (sm & ->); cbn [bind]);
    try (destruct (join_strs ", " (xu :: lu) Su) as (su & ->); cbn [bind]);
    eexists; reflexivity.
Qed.

Lemma report_stage_ok (stage : value) (acc : string) :
  stage_ok stage = true -> joined_texts_ok stage = true ->
  exists t, report_stage repr acc stage = Ok t.
Proof.
  intros Hok Hstr. unfold stage_ok in Hok. rewrite !andb_true_iff in Hok.
  destruct Hok as [[[[Hs Hname] Halt] Halts] Hjoint].
  unfold report_stage.
  rewrite (getitem_has_key _ _ Hname). cbn [bind].
  rewrite !(dict_get_field_or _ _ _ Hs). cbn [bind].
  rewrite (field_or_list _ _ Halt).
  assert (Ha : forall text, exists t,
               (if truthy (VList (list_field "alternative methods" stage)) then
                  methods <-
                    iterate (VList (list_field "alternative methods" stage)) ;;
                  for_each methods (report_alt_method repr)
                    (text ++ (nl ++ "**Альтернативные методы:**" ++ nl))%string
                else Ok text) = Ok t).
  { intros text.
    destruct (truthy (VList (list_field "alternative methods" stage))).
    - cbn [iterate bind]. apply for_each_ok. intros m Hin s.
      apply report_alt_method_ok.
      rewrite forallb_forall in Halts. apply Halts, Hin.
    - eexists; reflexivity. }
  destruct (Ha (acc ++ (nl ++ "### "
                        ++ fmt repr (field_or "name_stage" VNone stage) ++ nl))
               %string) as (t1 & ->).
  cbn [bind]. clear Ha. fold (joint_of stage).
  unfold joined_texts_ok in Hstr.
  assert (Hj : truthy (joint_of stage) = true -> joint_ok (joint_of stage) = true).
  { unfold joint_of, field_or.
    destruct (field "joint methods" stage) as [j|]; [|discriminate].
    intros Ht. rewrite Ht in Hjoint. exact Hjoint. }
  destruct (truthy (joint_of stage)); [|eexists; reflexivity].
  specialize (Hj eq_refl). unfold joint_ok in Hj. rewrite !andb_true_iff in Hj.
  destruct Hj as [[[Hd Hi] Hm] Hms].
  rewrite !(dict_get_field_or _ _ _ Hd). cbn [bind].
  destruct (truthy (field_or "methods" VNone (joint_of stage))) eqn:Htm;
    [|eexists; reflexivity].
  assert (Egm : getitem (joint_of stage) "methods"
                = Ok (VList (list_field "methods" (joint_of stage)))).
  { unfold list_or_absent, list_field, field_or in *.
    destruct (joint_of stage) as [| | | | | |jd]; try discriminate.
    unfold getitem. cbn [field] in *.
    destruct (lookup "methods" jd) as [[]|]; try discriminate; reflexivity. }
  assert (Hind : forall text, exists t,
               (if truthy (field_or "indications" VNone (joint_of stage)) then
                  indications <- getitem (joint_of stage) "indications" ;;
                  indications <- iterate indications ;;
                  Ok (text ++ ("Общие показания:" ++ nl
                               ++ bullets repr indications ++ nl))%string
                else Ok text) = Ok t).
  { intros text. unfold list_or_absent, field_or in *.
    destruct (joint_of stage) as [| | | | | |jd]; try discriminate.
    unfold getitem. cbn [field] in *.
    destruct (lookup "indications" jd) as [[| | | | |l|]|]; try discriminate.
    - destruct l; cbn [truthy bind iterate]; eexists; reflexivity.
    - eexists; reflexivity. }
  destruct (Hind (t1 ++ (nl ++ "**Совместные методы:**" ++ nl))%string)
    as (t2 & ->).
  cbn [bind]. clear Hind.
  assert (Hrec : forall text, exists t,
               (if truthy (field_or "recommendations" VNone (joint_of stage))
                then
                  recommendations <-
                    getitem (joint_of stage) "recommendations" ;;
                  Ok (text ++ ("Общие рекомендации: "
                               ++ fmt repr recommendations ++ nl))%string
                else Ok text) = Ok t).
  { intros text. unfold field_or.
    destruct (joint_of stage) as [| | | | | |jd]; try discriminate.
    unfold getitem. cbn [field].
    destruct (lookup "recommendations" jd) as [r|].
    - destruct (truthy r); cbn [bind]; eexists; reflexivity.
    - eexists; reflexivity. }
  destruct (Hrec t2) as (t3 & ->). cbn [bind]. clear Hrec.
  rewrite Egm. cbn [bind iterate].
  apply for_each_ok. intros m Hin s.
  rewrite forallb_forall in Hms, Hstr.
  specialize (Hstr m Hin). apply andb_prop in Hstr.
  apply report_joint_method_ok; [apply Hms, Hin | apply Hstr | apply Hstr].
Qed.

(** X17: the plan get_group_plan makes for a well-shaped group can always
    be reported: when the medicines and materials of the methods in joint
    blocks are strs and the variant has an 'ICD-10_code',
    generate_treatment_report raises nothing and names the download after
    the variant, spaces turned into underscores. *)
Theorem report_of_group_plan (variant_name : string) (g variant : value) :
  group_ok g = true ->
  forallb joined_texts_ok (list_field "stage" g) = true ->
  has_key "ICD-10_code" variant = true ->
  exists plan d,
    get_group_plan variant_name g = Ok plan
    /\ generate_treatment_report repr plan variant = Ok d
    /\ file_name d
       = ("treatment_plan_" ++ replace " " "_" variant_name ++ ".md")%string.
Proof.
  unfold group_ok. rewrite !andb_true_iff. intros [[Hg Hst] Hstages] Hstr Hicd.
  unfold get_group_plan.
  rewrite !(dict_get_field_or _ _ _ Hg). cbn [bind].
  rewrite (field_or_list _ _ Hst).
  set (plan := VDict [("variant", VStr variant_name);
                      ("group_description",
                       field_or "patients_indications" (VStr "") g);
                      ("stages", VList (list_field "stage" g))]).
  exists plan. unfold generate_treatment_report.
  change (getitem plan "variant") with (@Ok value (VStr variant_name)).
  change (getitem plan "group_description")
    with (@Ok value (field_or "patients_indications" (VStr "") g)).
  change (getitem plan "stages")
    with (@Ok value (VList (list_field "stage" g))).
  rewrite (getitem_has_key _ _ Hicd). cbn [bind iterate].
  destruct (for_each_ok (report_stage repr) (list_field "stage" g)) with
    (s := report_head repr (VStr variant_name)
            (field_or "ICD-10_code" VNone variant)
            (field_or "patients_indications" (VStr "") g))
    as (t & ->).
  { intros s Hin acc. rewrite forallb_forall in Hstages, Hstr.
    apply report_stage_ok; [apply Hstages, Hin | apply Hstr, Hin]. }
  cbn [bind replace_spaces]. eexists. repeat split.
Qed.

End ReportProperties.

Lemma report_is_head_and_sections_witness :
  exists d sections,
    generate_treatment_report no_repr sample_plan sample_variant_record = Ok d
    /\ Forall2 (fun stage section => report_stage no_repr "" stage = Ok section)
              [sample_stage] sections
    /\ data d
       = (report_head no_repr (VStr "Type B open") (VStr "S52.5") (VStr "Adults")
          ++ fold_right String.append "" sections)%string.
Proof.
  destruct (report_is_head_and_sections no_repr sample_plan
              sample_variant_record _ eq_refl)
    as (pv & icd & desc & sv & stages & sections & E1 & E2 & E3 & E4 & E5
        & F & D).
  injection E1 as <-. injection E2 as <-. injection E3 as <-.
  injection E4 as <-. injection E5 as <-.
  eexists. exists sections. split; [reflexivity|]. split; [exact F | exact D].
Defined.

Lemma report_file_name_witness :
  exists d,
    generate_treatment_report no_repr sample_plan sample_variant_record = Ok d
    /\ file_name d = "treatment_plan_Type_B_open.md"
    /\ has_char " " (file_name d) = false.
Proof.
  destruct (report_file_name no_repr sample_plan sample_variant_record _
              eq_refl) as (s & E & Hn & Hc & _).
  injection E as <-.
  eexists. split; [reflexivity|]. split; [exact Hn | exact Hc].
Defined.

Lemma report_omits_joint_without_methods_witness :
  report_stage no_repr "" (VDict stage_with_bare_joint)
  = report_stage no_repr ""
      (VDict (without_key "joint methods" stage_with_bare_joint)).
Proof.
  apply (report_omits_joint_without_methods no_repr ""
           stage_with_bare_joint
           (VDict [("indications", VList [VStr "Open fracture"])])).
  - reflexivity.
  - right. split; reflexivity.
Defined.

Lemma report_of_group_plan_witness :
  group_ok (VDict [("stage", VList [sample_stage])]) = true
  /\ exists plan d,
       get_group_plan "Type B open" (VDict [("stage", VList [sample_stage])])
       = Ok plan
       /\ generate_treatment_report no_repr plan sample_variant_record = Ok d
       /\ file_name d
          = ("treatment_plan_" ++ replace " " "_" "Type B open" ++ ".md")%string.
Proof.
  split; [reflexivity|].
  apply (report_of_group_plan no_repr "Type B open"
           (VDict [("stage", VList [sample_stage])]) sample_variant_record);
    reflexivity.
Defined.

(** ** A joint block that is no dict *)

Section NullJoint.

Variable lower : string -> string.
Variable repr : value -> string.


End NullJoint.

